(** * ChartComponent: configuration clean-up and renderer selection

    A shallow embedding of [src/components/ChartComponent.js]: the memoised
    [safeChartConfig] computation, [chartOptions], [defaultChart],
    [renderTable] and [renderChart], together with the JavaScript value
    operations those functions rely on (truthiness, property reads, optional
    chaining, [Array.isArray], object spread, [??]); of its caller
    [src/App.js]: [fetchData] with its colouring pass, [handleQuerySubmit],
    the theme effect and the chart section of the page; and of [index.js],
    which puts the saved theme on the body before React mounts. *)

From stdpp Require Import base option list strings gmap pretty.

Set Warnings "-register-all,-clear-no-such-hyp".

Open Scope string_scope.
Open Scope nat_scope.

(** ** JavaScript values

    [chartConfig] is whatever the backend answered, parsed from JSON, or
    [null]/[undefined] when the field is missing.  Numbers are carried around
    untouched by this component; only their truthiness is ever inspected. *)

Inductive JsVal : Type :=
| JUndefined
| JNull
| JBool (b : bool)
| JNum (z : Z)
| JStr (s : string)
| JArr (l : list JsVal)
| JObj (o : gmap string JsVal).

(** [!v] is [negb (truthy v)]; [a || b] picks [a] when [truthy a]. *)
Definition truthy (v : JsVal) : bool :=
  match v with
  | JUndefined | JNull => false
  | JBool b => b
  | JNum z => negb (z =? 0)%Z
  | JStr s => negb (String.eqb s "")
  | JArr _ | JObj _ => true
  end.

Definition nullish (v : JsVal) : bool :=
  match v with
  | JUndefined | JNull => true
  | _ => false
  end.

(** [a ?? b] *)
Definition coalesce (a b : JsVal) : JsVal := if nullish a then b else a.

(** [a || b] on values, when evaluating [b] has no effect. *)
Definition or_else (a b : JsVal) : JsVal := if truthy a then a else b.

(** [a === "lit"] *)
Definition is_str (v : JsVal) (lit : string) : bool :=
  match v with
  | JStr s => String.eqb s lit
  | _ => false
  end.

(** [o.k] on an object that is already known to be one. *)
Definition prop (o : gmap string JsVal) (k : string) : JsVal :=
  default JUndefined (o !! k).

(** ** Effects: exceptions, [Math.random], [console.warn] *)

Inductive Exn : Type :=
| TypeError (msg : string).

Inductive Warning : Type :=
| InvalidChartConfig (chartConfig : JsVal)
| NoValidDatasets.

(** The world a render runs in.  [entropy n] is the value of the [n]-th
    evaluation of [Math.floor(Math.random() * 255)]; [drawn] counts the
    evaluations so far; [console] collects the warnings, oldest first. *)
Record World : Type := MkWorld {
  entropy : nat → N;
  drawn : nat;
  console : list Warning;
}.

Inductive Completion (A : Type) : Type :=
| Normal (a : A)
| Throw (e : Exn).
Arguments Normal {A} a.
Arguments Throw {A} e.

Definition JS (A : Type) : Type := World → Completion A * World.

#[global] Instance JS_ret : MRet JS := λ A a w, (Normal a, w).
#[global] Instance JS_bind : MBind JS := λ A B f m w,
  match m w with
  | (Normal a, w') => f a w'
  | (Throw e, w') => (Throw e, w')
  end.

#[global] Instance JS_fmap : FMap JS := λ A B f m, a ← m; mret (f a).

Definition throw {A} (e : Exn) : JS A := λ w, (Throw e, w).

Definition warn (msg : Warning) : JS () := λ w,
  (Normal (), MkWorld (entropy w) (drawn w) (console w ++ [msg])).

(** [Math.floor(Math.random() * 255)] *)
Definition random_channel : JS N := λ w,
  (Normal (entropy w (drawn w)), MkWorld (entropy w) (S (drawn w)) (console w)).

(** [v.k] for a property name [k] that no prototype supplies (the names this
    component reads: [datasets], [labels], [data], [label],
    [backgroundColor], [borderColor]).  Reading from [null] or [undefined]
    throws; primitives and arrays have no such own property. *)
Definition get (v : JsVal) (k : string) : JS JsVal :=
  match v with
  | JUndefined | JNull =>
      throw (TypeError ("Cannot read properties of null or undefined: " +:+ k))
  | JObj o => mret (prop o k)
  | _ => mret JUndefined
  end.

Definition chars (s : string) : list JsVal :=
  (λ c, JStr (String c EmptyString)) <$> String.list_ascii_of_string s.

(** [v[i]] for an array index [i]. *)
Definition at_index (v : JsVal) (i : nat) : JS JsVal :=
  match v with
  | JUndefined | JNull =>
      throw (TypeError ("Cannot read properties of null or undefined: " +:+ pretty i))
  | JArr l => mret (default JUndefined (l !! i))
  | JStr s => mret (default JUndefined (chars s !! i))
  | JObj o => mret (prop o (pretty i))
  | _ => mret JUndefined
  end.

(** The own enumerable properties copied by [{...v}]. *)
Definition indexed (l : list JsVal) : gmap string JsVal :=
  list_to_map (imap (λ i x, (pretty i, x)) l).

Definition spread (v : JsVal) : gmap string JsVal :=
  match v with
  | JObj o => o
  | JArr l => indexed l
  | JStr s => indexed (chars s)
  | _ => ∅
  end.

(** [l.filter(p)] for a predicate that may throw. *)
Fixpoint filterM {A} (p : A → JS bool) (l : list A) : JS (list A) :=
  match l with
  | [] => mret []
  | x :: l =>
      keep ← p x;
      rest ← filterM p l;
      mret (if keep : bool then x :: rest else rest)
  end.

(** ** [randomColor] *)

(** The template [`rgba(${r}, ${g}, ${b}, ${alpha})`]; [alpha] is the text
    the number prints as ([0.2], [0.6], [1]). *)
Definition rgba (r g b : N) (alpha : string) : string :=
  "rgba(" +:+ pretty r +:+ ", " +:+ pretty g +:+ ", " +:+ pretty b +:+ ", "
          +:+ alpha +:+ ")".

Definition randomColor (alpha : string) : JS string :=
  r ← random_channel;
  g ← random_channel;
  b ← random_channel;
  mret (rgba r g b alpha).

(** ** [safeChartConfig] *)

Record ChartData : Type := MkChartData {
  labels : list JsVal;
  datasets : list (gmap string JsVal);
}.

(** [(_, i) => `Label ${i + 1}`] mapped over an array *)
Definition label_names (data : list JsVal) : list JsVal :=
  imap (λ i _, JStr ("Label " +:+ pretty (i + 1))) data.

(** [chartConfig.datasets[0]?.data?.map((_, i) => `Label ${i + 1}`) || []] *)
Definition fallback_labels (datasets : list JsVal) : JS (list JsVal) :=
  first ← at_index (JArr datasets) 0;
  if nullish first then mret []
  else
    data ← get first "data";
    match data with
    | JUndefined | JNull => mret []
    | JArr xs => mret (label_names xs)
    | _ => throw (TypeError "chartConfig.datasets[0]?.data?.map is not a function")
    end.

(** [(ds) => Array.isArray(ds.data) && ds.data.length > 0] *)
Definition has_data (ds : JsVal) : JS bool :=
  data ← get ds "data";
  mret (match data with
        | JArr xs => bool_decide (0 < length xs)
        | _ => false
        end).

(** The [.map((ds) => ...)] callback: defaults for label and colours. *)
Definition with_defaults (chartType : JsVal) (labels : list JsVal)
    (ds : JsVal) : JS (gmap string JsVal) :=
  given ← get ds "backgroundColor";
  bgColor ←
    (if truthy given then mret given
     else if is_str chartType "line" then JStr <$> randomColor "0.2"
     else JArr <$> mapM (λ _, JStr <$> randomColor "0.6") labels);
  label ← get ds "label";
  border ← get ds "borderColor";
  borderColor ←
    (if truthy border then mret border else JStr <$> randomColor "1");
  mret (<["borderColor" := borderColor]>
          (<["backgroundColor" := bgColor]>
             (<["label" := or_else label (JStr "Series")]> (spread ds)))).

Definition safeChartConfig (chartConfig chartType : JsVal)
    : JS (option ChartData) :=
  if negb (truthy chartConfig) then
    warn (InvalidChartConfig chartConfig);; mret None
  else
    ds ← get chartConfig "datasets";
    match ds with
    | JArr raw =>
        given ← get chartConfig "labels";
        labels ← (match given with
                  | JArr ls => mret ls
                  | _ => fallback_labels raw
                  end);
        kept ← filterM has_data raw;
        datasets ← mapM (with_defaults chartType labels) kept;
        if bool_decide (length datasets = 0) then
          warn NoValidDatasets;; mret None
        else mret (Some (MkChartData labels datasets))
    | _ => warn (InvalidChartConfig chartConfig);; mret None
    end.

(** ** [chartOptions] *)

Record TitleOptions : Type := MkTitle {
  title_display : bool;
  title_text : string;
  title_color : string;
}.

Record TooltipOptions : Type := MkTooltip {
  tooltip_backgroundColor : string;
  tooltip_titleColor : string;
  tooltip_bodyColor : string;
}.

Record PluginOptions : Type := MkPlugins {
  legend_position : string;
  legend_labels_color : string;
  title : TitleOptions;
  tooltip : TooltipOptions;
}.

Record AxisOptions : Type := MkAxis {
  beginAtZero : option bool;
  ticks_color : string;
  grid_color : string;
}.

Record ScaleOptions : Type := MkScales {
  x_axis : AxisOptions;
  y_axis : AxisOptions;
}.

Record ChartOptions : Type := MkOptions {
  responsive : bool;
  plugins : PluginOptions;
  scales : option ScaleOptions;
}.

Definition chartOptions (isDarkMode : bool) (chartType : JsVal) : ChartOptions :=
  {| responsive := true;
     plugins :=
       {| legend_position := "top";
          legend_labels_color := if isDarkMode then "#e2e8f0" else "#333";
          title :=
            {| title_display := true;
               title_text := "Data Visualization";
               title_color := if isDarkMode then "#e2e8f0" else "#333" |};
          tooltip :=
            {| tooltip_backgroundColor := if isDarkMode then "#2d3748" else "#fff";
               tooltip_titleColor := if isDarkMode then "#e2e8f0" else "#000";
               tooltip_bodyColor := if isDarkMode then "#e2e8f0" else "#000" |} |};
     scales :=
       if negb (is_str chartType "pie") then
         Some {| x_axis := {| beginAtZero := None;
                         ticks_color := if isDarkMode then "#e2e8f0" else "#333";
                         grid_color := if isDarkMode then "#444" else "#ddd" |};
                 y_axis := {| beginAtZero := Some true;
                         ticks_color := if isDarkMode then "#e2e8f0" else "#333";
                         grid_color := if isDarkMode then "#444" else "#ddd" |} |}
       else None |}.

(** ** What the component renders *)

Record Row : Type := MkRow {
  category : JsVal;
  cells : list JsVal;
}.

Inductive Element : Type :=
| Bar (data : ChartData) (options : ChartOptions)
| Line (data : ChartData) (options : ChartOptions)
| Pie (data : ChartData) (options : ChartOptions)
| Table (thead : list JsVal) (tbody : list Row)
| Div (text : string).

(** ** [defaultChart] *)

Definition defaultData : ChartData :=
  {| labels := [JStr "A"; JStr "B"; JStr "C"; JStr "D"];
     datasets :=
       [ <["fill" := JBool true]>
           (<["backgroundColor" := JStr "rgba(75, 192, 192, 0.2)"]>
              (<["borderColor" := JStr "rgba(75, 192, 192, 1)"]>
                 (<["data" := JArr [JNum 10; JNum 20; JNum 15; JNum 30]]>
                    {["label" := JStr "Default Data"]}))) ] |}.

Definition defaultChart (isDarkMode : bool) (chartType : JsVal) : Element :=
  let chartOptions := chartOptions isDarkMode chartType in
  Line defaultData
    {| responsive := responsive chartOptions;
       plugins :=
         {| legend_position := legend_position (plugins chartOptions);
            legend_labels_color := legend_labels_color (plugins chartOptions);
            title :=
              {| title_display := true;
                 title_text := "Default Chart (No Valid Data)";
                 title_color := if isDarkMode then "#e2e8f0" else "#333" |};
            tooltip := tooltip (plugins chartOptions) |};
       scales := scales chartOptions |}.

(** ** [renderTable] *)

(** [<td>{ds.data[rowIndex] ?? "N/A"}</td>] *)
Definition table_cell (rowIndex : nat) (ds : gmap string JsVal) : JS JsVal :=
  v ← at_index (prop ds "data") rowIndex;
  mret (coalesce v (JStr "N/A")).

(** One [<tr>] of the body. *)
Definition table_row (datasets : list (gmap string JsVal))
    (rowIndex : nat) (label : JsVal) : JS Row :=
  tds ← mapM (table_cell rowIndex) datasets;
  mret (MkRow label tds).

(** [labels.map((label, rowIndex) => ...)], rows numbered from [start]. *)
Fixpoint table_body (datasets : list (gmap string JsVal)) (start : nat)
    (labels : list JsVal) : JS (list Row) :=
  match labels with
  | [] => mret []
  | label :: rest =>
      tr ← table_row datasets start label;
      trs ← table_body datasets (S start) rest;
      mret (tr :: trs)
  end.

Definition renderTable (safeChartConfig : option ChartData) : JS Element :=
  match safeChartConfig with
  | None => mret (Div "No table data available")
  | Some cfg =>
      let head := JStr "Category" :: ((λ ds, prop ds "label") <$> datasets cfg) in
      body ← table_body (datasets cfg) 0 (labels cfg);
      mret (Table head body)
  end.

(** ** [renderChart] *)

(** [["History", "Forecast"].includes(ds.label)] *)
Definition reserved_label (ds : gmap string JsVal) : bool :=
  is_str (prop ds "label") "History" || is_str (prop ds "label") "Forecast".

(** The object literal that restyles a series in the line chart. *)
Definition forecast_style (ds : gmap string JsVal) : gmap string JsVal :=
  <["backgroundColor" := JStr "rgba(255,99,132,0.2)"]>
    (<["fill" := JBool true]>
       (<["pointBackgroundColor" := JStr "red"]>
          (<["pointRadius" := JNum 5]>
             (<["borderDash" := JArr [JNum 6; JNum 6]]> ds)))).

(** [(ds) => ds.label === "Forecast" ? {...} : ds] *)
Definition restyle (ds : gmap string JsVal) : gmap string JsVal :=
  if is_str (prop ds "label") "Forecast" then forecast_style ds else ds.

Definition renderChart (safeChartConfig : option ChartData)
    (chartType : JsVal) (isDarkMode : bool) : JS Element :=
  match safeChartConfig with
  | None => mret (defaultChart isDarkMode chartType)
  | Some cfg =>
      let chartOptions := chartOptions isDarkMode chartType in
      if is_str chartType "bar" then mret (Bar cfg chartOptions)
      else if is_str chartType "line" then
        if existsb reserved_label (datasets cfg) then
          let modified :=
            {| labels := labels cfg; datasets := restyle <$> datasets cfg |} in
          mret (Line modified chartOptions)
        else mret (Line cfg chartOptions)
      else if is_str chartType "pie" then mret (Pie cfg chartOptions)
      else if is_str chartType "table" then renderTable safeChartConfig
      else mret (defaultChart isDarkMode chartType)
  end.

(** The body of the component up to [{renderChart()}]. *)
Definition ChartComponent (chartType chartConfig : JsVal) (isDarkMode : bool)
    : JS Element :=
  safe ← safeChartConfig chartConfig chartType;
  renderChart safe chartType isDarkMode.

(** ** Running a computation *)

(** The completion of a computation started in [w]. *)
Definition run {A} (m : JS A) (w : World) : Completion A := fst (m w).

(** A world whose random channel values are [7, 8, 9, ...]. *)
Definition counting_world : World := MkWorld (λ n, N.of_nat (7 + n)) 0 [].

(** An object literal. *)
Definition obj (kvs : list (string * JsVal)) : JsVal := JObj (list_to_map kvs).

(** * Vocabulary of the statements *)

(** ** The effects of a run, described from outside *)

(** A world after [n] more draws. *)
Definition advance (n : nat) (w : World) : World :=
  MkWorld (entropy w) (drawn w + n) (console w).

(** The colour built from three consecutive draws starting at [p]. *)
Definition color_at (e : nat → N) (p : nat) (alpha : string) : string :=
  rgba (e p) (e (p + 1)) (e (p + 2)) alpha.

(** The per-label palette: label [j] takes draws [p + 3j .. p + 3j + 2]. *)
Definition palette (e : nat → N) (p : nat) (labels : list JsVal) : list JsVal :=
  imap (λ j _, JStr (color_at e (p + 3 * j) "0.6")) labels.

(** The filter predicate [has_data] as a plain function: what it answers on
    any value other than [null] and [undefined] (on those it throws). *)
Definition valid_series (v : JsVal) : bool :=
  match v with
  | JObj o =>
      match prop o "data" with
      | JArr xs => bool_decide (0 < length xs)
      | _ => false
      end
  | _ => false
  end.

(** What [fallback_labels] computes; [None] stands for the [TypeError]. *)
Definition first_series_labels (raw : list JsVal) : option (list JsVal) :=
  match raw with
  | JObj d :: _ =>
      match prop d "data" with
      | JUndefined | JNull => Some []
      | JArr xs => Some (label_names xs)
      | _ => None
      end
  | _ => Some []
  end.

(** The exception raised when [.map] is called on a [data] that is neither
    an array nor [null]/[undefined]. *)
Definition not_a_function : Exn :=
  TypeError "chartConfig.datasets[0]?.data?.map is not a function".

(** The [labels] constant of [safeChartConfig]; [None] for the [TypeError]. *)
Definition resolved_labels (o : gmap string JsVal) (raw : list JsVal)
    : option (list JsVal) :=
  match prop o "labels" with
  | JArr ls => Some ls
  | _ => first_series_labels raw
  end.

(** The properties of a value that is an object. *)
Definition as_object (v : JsVal) : gmap string JsVal :=
  match v with
  | JObj o => o
  | _ => ∅
  end.

(** [bgColor] for the series [o] when [p] draws have been made so far. *)
Definition background_for (chartType : JsVal) (labels : list JsVal)
    (e : nat → N) (p : nat) (o : gmap string JsVal) : JsVal :=
  if truthy (prop o "backgroundColor") then prop o "backgroundColor"
  else if is_str chartType "line" then JStr (color_at e p "0.2")
  else JArr (palette e p labels).

(** The number of draws [bgColor] takes. *)
Definition background_draws (chartType : JsVal) (labels : list JsVal)
    (o : gmap string JsVal) : nat :=
  if truthy (prop o "backgroundColor") then 0
  else if is_str chartType "line" then 3
  else 3 * length labels.

(** [ds.borderColor || randomColor(1)] when [q] draws have been made. *)
Definition border_for (e : nat → N) (q : nat) (o : gmap string JsVal) : JsVal :=
  if truthy (prop o "borderColor") then prop o "borderColor"
  else JStr (color_at e q "1").

(** The number of draws one series takes. *)
Definition series_draws (chartType : JsVal) (labels : list JsVal)
    (o : gmap string JsVal) : nat :=
  background_draws chartType labels o
  + (if truthy (prop o "borderColor") then 0 else 3).

(** The object the [.map] callback returns for the series [o]. *)
Definition series_after (chartType : JsVal) (labels : list JsVal)
    (e : nat → N) (p : nat) (o : gmap string JsVal) : gmap string JsVal :=
  <["borderColor" := border_for e (p + background_draws chartType labels o) o]>
    (<["backgroundColor" := background_for chartType labels e p o]>
       (<["label" := or_else (prop o "label") (JStr "Series")]> o)).

(** All surviving series, threaded through the random draws. *)
Fixpoint series_from (chartType : JsVal) (labels : list JsVal)
    (e : nat → N) (p : nat) (os : list (gmap string JsVal))
    : list (gmap string JsVal) :=
  match os with
  | [] => []
  | o :: os =>
      series_after chartType labels e p o
      :: series_from chartType labels e (p + series_draws chartType labels o) os
  end.

(** The number of draws all of them take. *)
Fixpoint total_draws (chartType : JsVal) (labels : list JsVal)
    (os : list (gmap string JsVal)) : nat :=
  match os with
  | [] => 0
  | o :: os => series_draws chartType labels o + total_draws chartType labels os
  end.

(** The surviving series of a raw [datasets] array, as objects. *)
Definition survivors (raw : list JsVal) : list (gmap string JsVal) :=
  as_object <$> List.filter valid_series raw.

(** A world after one more warning. *)
Definition warned (msg : Warning) (w : World) : World :=
  MkWorld (entropy w) (drawn w) (console w ++ [msg]).

(** The [datasets] array of a raw configuration, if it has one. *)
Definition datasets_array (chartConfig : JsVal) : option (list JsVal) :=
  match chartConfig with
  | JObj o =>
      match prop o "datasets" with
      | JArr raw => Some raw
      | _ => None
      end
  | _ => None
  end.

(** What every cleaned-up configuration satisfies: at least one series, and
    each series carries a non-empty [data] array. *)
Definition well_formed (cfg : ChartData) : Prop :=
  datasets cfg ≠ [] ∧
  Forall (λ ds, ∃ xs, ds !! "data" = Some (JArr xs) ∧ 0 < length xs)
         (datasets cfg).

(** The value a cell shows, for a series whose [data] is the array [xs]. *)
Definition shown (xs : list JsVal) (rowIndex : nat) : JsVal :=
  coalesce (default JUndefined (xs !! rowIndex)) (JStr "N/A").

(** The [data] array of a series (empty when it has none). *)
Definition series_data (ds : gmap string JsVal) : list JsVal :=
  match prop ds "data" with
  | JArr xs => xs
  | _ => []
  end.

(** A series that carries a non-empty [data] array. *)
Definition has_data_array (ds : gmap string JsVal) : Prop :=
  ∃ xs, ds !! "data" = Some (JArr xs) ∧ 0 < length xs.

(** The table row for one label. *)
Definition row_at (dss : list (gmap string JsVal)) (rowIndex : nat)
    (label : JsVal) : Row :=
  MkRow label ((λ ds, shown (series_data ds) rowIndex) <$> dss).

(** ** Readings taken from the specification's wording *)

(** C1 reads the synthesised labels off the first series that survives the
    filter, and takes their number to be the greatest series length. *)
Definition labels_of_first_survivor (raw : list JsVal) : list JsVal :=
  match survivors raw with
  | ds :: _ => label_names (series_data ds)
  | [] => []
  end.

(** The greatest length of a [data] array in a configuration. *)
Definition max_series_length (cfg : ChartData) : nat :=
  max_list ((λ ds, length (series_data ds)) <$> datasets cfg).

(** C2 asks for both reserved labels among the series. *)
Definition has_reserved_pair (cfg : ChartData) : bool :=
  existsb (λ ds, is_str (prop ds "label") "History") (datasets cfg)
  && existsb (λ ds, is_str (prop ds "label") "Forecast") (datasets cfg).

(** ** Sample inputs *)

(** The [datasets] of [{datasets: [{data: []}, {data: [1, 2]}]}] *)
Definition first_series_empty : list JsVal :=
  [obj [("data", JArr [])]; obj [("data", JArr [JNum 1; JNum 2])]].

(** The [datasets] of [{datasets: [{data: [1]}, {data: [1, 2]}]}] *)
Definition uneven_series : list JsVal :=
  [obj [("data", JArr [JNum 1])]; obj [("data", JArr [JNum 1; JNum 2])]].

(** [{labels: ["Q1", "Q2"], datasets: [{label: "Forecast", data: [3, 4]}]}] *)
Definition forecast_only : JsVal :=
  obj [("labels", JArr [JStr "Q1"; JStr "Q2"]);
       ("datasets", JArr [obj [("label", JStr "Forecast");
                               ("data", JArr [JNum 3; JNum 4])]])].

(** The [datasets] of
    [{datasets: [{label: "Broken", data: "n/a"}, {label: "Sales", data: [3, 5]}]}] *)
Definition broken_then_sales : list JsVal :=
  [obj [("label", JStr "Broken"); ("data", JStr "n/a")];
   obj [("label", JStr "Sales"); ("data", JArr [JNum 3; JNum 5])]].

(** The [datasets] of
    [{datasets: [{data: {}}, {label: "Sales", data: [1, 2, 3]}]}] *)
Definition object_then_sales : list JsVal :=
  [obj [("data", obj [])];
   obj [("label", JStr "Sales"); ("data", JArr [JNum 1; JNum 2; JNum 3])]].

(** [{labels: ["Q1", "Q2"], datasets: [{data: [100, 200]}]}] *)
Definition quarterly : JsVal :=
  obj [("labels", JArr [JStr "Q1"; JStr "Q2"]);
       ("datasets", JArr [obj [("data", JArr [JNum 100; JNum 200])]])].

(** The configuration a run returns, if it returns one. *)
Definition cleaned (chartConfig chartType : JsVal) (w : World) : ChartData :=
  match run (safeChartConfig chartConfig chartType) w with
  | Normal (Some cfg) => cfg
  | _ => {| labels := []; datasets := [] |}
  end.

(** The world a run leaves behind. *)
Definition world_after (chartConfig chartType : JsVal) (w : World) : World :=
  snd (safeChartConfig chartConfig chartType w).

(** [{labels: ["a"], datasets: [{data: [1], backgroundColor: "",
                                  borderColor: ""}]}] *)
Definition blank_colours : JsVal :=
  obj [("labels", JArr [JStr "a"]);
       ("datasets", JArr [obj [("data", JArr [JNum 1]);
                               ("backgroundColor", JStr "");
                               ("borderColor", JStr "")]])].

(** [{labels: ["a", "b", "c"], datasets: [{label: "s", data: [1, null]}]}] *)
Definition short_series : JsVal :=
  obj [("labels", JArr [JStr "a"; JStr "b"; JStr "c"]);
       ("datasets", JArr [obj [("label", JStr "s");
                               ("data", JArr [JNum 1; JNull])]])].

(** [{datasets: [{data: [1]}, {data: [1, 2]}]}] *)
Definition unlabelled : JsVal := obj [("datasets", JArr uneven_series)].

(** ** More vocabulary for [safeChartConfig] *)

(** [Array.isArray(v)] *)
Definition is_array (v : JsVal) : bool :=
  match v with
  | JArr _ => true
  | _ => false
  end.

(** The object [{ labels, datasets }] that [safeChartConfig] returns, as a
    value that can be handed to the component again. *)
Definition to_config (cfg : ChartData) : JsVal :=
  JObj (<["datasets" := JArr (JObj <$> datasets cfg)]>
          {["labels" := JArr (labels cfg)]}).

(** A series that has a truthy label and both colours. *)
Definition fully_styled (ds : gmap string JsVal) : Prop :=
  truthy (prop ds "label") = true ∧
  truthy (prop ds "backgroundColor") = true ∧
  truthy (prop ds "borderColor") = true.

(** The chart data and options of an element that is a chart. *)
Definition chart_of (el : Element) : option (ChartData * ChartOptions) :=
  match el with
  | Bar d o | Line d o | Pie d o => Some (d, o)
  | _ => None
  end.

(** [{labels: [], datasets: [{label: "Sales", data: [1, 2],
      backgroundColor: "teal", borderColor: "navy"}]}] *)
Definition styled_sales : JsVal :=
  obj [("labels", JArr []);
       ("datasets", JArr [obj [("label", JStr "Sales");
                               ("data", JArr [JNum 1; JNum 2]);
                               ("backgroundColor", JStr "teal");
                               ("borderColor", JStr "navy")]])].

(** * [App.js]: fetching an answer *)

(** The page around the component: the JavaScript world of
    [ChartComponent], the value [hues n] of the [n]-th evaluation of
    [Math.floor(Math.random() * 360)] (the calls of [Math.random] are
    counted by [drawn]), the completion [compare_zero v] of [v > 0] for a
    value [v] that is a string, an array or an object (the engine's
    conversion to a number), the messages passed to [console.error],
    [localStorage] and the class list of [document.body]. *)
Record Browser : Type := MkBrowser {
  js : World;
  hues : nat → N;
  compare_zero : JsVal → Completion bool;
  errors : list string;
  storage : gmap string string;
  classes : gset string;
}.

(** [`hsl(${Math.floor(Math.random() * 360)}, 70%, 60%)`] *)
Definition hsl (h : N) : string := "hsl(" +:+ pretty h +:+ ", 70%, 60%)".

Definition random_hsl (hues : nat → N) : JS JsVal := λ w,
  (Normal (JStr (hsl (hues (drawn w)))),
   MkWorld (entropy w) (S (drawn w)) (console w)).

(** [v > 0] *)
Definition greater_than_zero (compare_zero : JsVal → Completion bool)
    (v : JsVal) : JS bool :=
  match v with
  | JNum z => mret (bool_decide (0 < z)%Z)
  | JBool b => mret b
  | JUndefined | JNull => mret false
  | JStr _ | JArr _ | JObj _ => λ w, (compare_zero v, w)
  end.

Definition labels_not_mappable : Exn :=
  TypeError "data.chart_config.labels.map is not a function".

Definition datasets_not_mappable : Exn :=
  TypeError "data.chart_config.datasets.map is not a function".

(** The callback of lines 26-33:
    [(ds) => ({...ds, backgroundColor: ds.backgroundColor ||
                 data.chart_config.labels.map(() => `hsl(...)`)})] *)
Definition with_background (hues : nat → N)
    (chart_config : gmap string JsVal) (ds : JsVal) : JS JsVal :=
  given ← get ds "backgroundColor";
  backgroundColor ←
    (if truthy given then mret given
     else match prop chart_config "labels" with
          | JArr ls => JArr <$> mapM (λ _, random_hsl hues) ls
          | _ => throw labels_not_mappable
          end);
  mret (JObj (<["backgroundColor" := backgroundColor]> (spread ds))).

(** Lines 25-34: [if (data.chart_config?.datasets?.length > 0)
    data.chart_config.datasets = data.chart_config.datasets.map(...)];
    the result is [data] after the assignment.  Only an object has a
    [chart_config] or a [datasets] of its own, an array has its length, a
    string has one that is positive unless the string is empty, and only
    an array has [map]. *)
Definition colorize (hues : nat → N) (compare_zero : JsVal → Completion bool)
    (data : JsVal) : JS JsVal :=
  chart_config ← get data "chart_config";
  match data, chart_config with
  | JObj d, JObj c =>
      match prop c "datasets" with
      | JArr l =>
          if bool_decide (0 < length l) then
            datasets ← mapM (with_background hues c) l;
            mret (JObj (<["chart_config" :=
                            JObj (<["datasets" := JArr datasets]> c)]> d))
          else mret data
      | JStr s =>
          if negb (String.eqb s "") then throw datasets_not_mappable
          else mret data
      | JObj ds =>
          positive ← greater_than_zero compare_zero (prop ds "length");
          if positive : bool then throw datasets_not_mappable else mret data
      | _ => mret data
      end
  | _, _ => mret data
  end.

(** The value handed to [setConversation] (lines 37-46). *)
Record Conversation : Type := MkConversation {
  user_text : string;
  bot_text : JsVal;
  bot_chartType : JsVal;
  bot_chartConfig : JsVal;
  bot_sql : JsVal;
  bot_raw : JsVal;
}.

Definition conversation_of (userQuery : string) (data : JsVal)
    : JS Conversation :=
  answer ← get data "answer";
  chart_type ← get data "chart_type";
  chart_config ← get data "chart_config";
  sql ← get data "sql";
  result ← get data "result";
  mret {| user_text := userQuery;
          bot_text := answer;
          bot_chartType := chart_type;
          bot_chartConfig := or_else chart_config JNull;
          bot_sql := sql;
          bot_raw := result |}.

(** The [try] block once the request has resolved with [data]. *)
Definition on_resolved (hues : nat → N)
    (compare_zero : JsVal → Completion bool) (userQuery : string)
    (data : JsVal) : JS Conversation :=
  data' ← colorize hues compare_zero data;
  conversation_of userQuery data'.

(** The state of [App]. *)
Record AppState : Type := MkAppState {
  conversation : option Conversation;
  loading : bool;
  error : option string;
  query : string;
  darkMode : bool;
}.

(** How [axios.post] settles: with [response.data], or with an error
    carrying a message. *)
Inductive Reply : Type :=
| Resolved (data : JsVal)
| Rejected (message : string).

(** [fetchData] up to the [await]: [setLoading(true); setError(null)]. *)
Definition fetch_begin (s : AppState) : AppState :=
  {| conversation := conversation s; loading := true; error := None;
     query := query s; darkMode := darkMode s |}.

(** The [catch] and [finally] blocks for an error with message [msg]. *)
Definition fetch_failed (msg : string) (w : World) (s : AppState)
    (b : Browser) : AppState * Browser :=
  ({| conversation := conversation s; loading := false;
      error := Some ("Failed to fetch data: " +:+ msg);
      query := query s; darkMode := darkMode s |},
   {| js := w; hues := hues b; compare_zero := compare_zero b;
      errors := errors b ++ [msg]; storage := storage b;
      classes := classes b |}).

(** [fetchData] from the [await] on, in the state current at that time. *)
Definition fetch_end (userQuery : string) (reply : Reply) (s : AppState)
    (b : Browser) : AppState * Browser :=
  match reply with
  | Rejected msg => fetch_failed msg (js b) s b
  | Resolved data =>
      match on_resolved (hues b) (compare_zero b) userQuery data (js b) with
      | (Normal conv, w) =>
          ({| conversation := Some conv; loading := false; error := error s;
              query := query s; darkMode := darkMode s |},
           {| js := w; hues := hues b; compare_zero := compare_zero b;
              errors := errors b; storage := storage b;
              classes := classes b |})
      | (Throw (TypeError msg), w) => fetch_failed msg w s b
      end
  end.

(** [handleQuerySubmit] up to the [await] of its [fetchData]. *)
Definition handleQuerySubmit (newQuery : string) (s : AppState) : AppState :=
  fetch_begin {| conversation := conversation s; loading := loading s;
                 error := error s; query := newQuery;
                 darkMode := darkMode s |}.

(** What the chart section of the page shows (lines 170-194). *)
Inductive ChartSection : Type :=
| ChartShown (chart : Element) (sql raw : JsVal)
| NoChart.

Definition chart_section (conv : Conversation) (isDarkMode : bool)
    : JS ChartSection :=
  if truthy (bot_chartConfig conv) then
    chart ← ChartComponent (bot_chartType conv) (bot_chartConfig conv) isDarkMode;
    mret (ChartShown chart (bot_sql conv) (bot_raw conv))
  else mret NoChart.

(** ** Vocabulary for [App.js] *)

(** [v.k] for a value [v] other than [null] and [undefined]. *)
Definition own (v : JsVal) (k : string) : JsVal :=
  match v with
  | JObj o => prop o k
  | _ => JUndefined
  end.

(** The palette made for one series when [p] random numbers have been
    drawn: one [hsl] colour per label, each from its own draw. *)
Definition hsl_palette (hues : nat → N) (p : nat) (ls : list JsVal)
    : list JsVal :=
  imap (λ j _, JStr (hsl (hues (p + j)))) ls.

(** The object the callback builds for [ds] from the colour [bg]. *)
Definition coloured (ds : JsVal) (bg : JsVal) : JsVal :=
  JObj (<["backgroundColor" := bg]> (spread ds)).

(** A series on which the colouring callback throws: it is [null] or
    [undefined], or it has no background colour while [labels] of the chart
    configuration [c] is not an array. *)
Definition blocks (c : gmap string JsVal) (ds : JsVal) : bool :=
  nullish ds
  || (negb (truthy (own ds "backgroundColor"))
      && negb (is_array (prop c "labels"))).

(** What a colouring pass that completes has done, series by series. *)
Definition recoloured (hues : nat → N) (c : gmap string JsVal)
    (ds out : JsVal) : Prop :=
  nullish ds = false ∧
  ∃ bg, out = coloured ds bg ∧ truthy bg = true ∧
    (truthy (own ds "backgroundColor") = true → bg = own ds "backgroundColor") ∧
    (truthy (own ds "backgroundColor") = false →
     ∃ ls p, prop c "labels" = JArr ls ∧ bg = JArr (hsl_palette hues p ls)).

(** The series of an [App]-side chart configuration all have a background
    colour. *)
Definition backgrounds_set (chart_config : JsVal) : Prop :=
  ∀ c l, chart_config = JObj c → prop c "datasets" = JArr l →
    Forall (λ v, ∃ ds, v = JObj ds ∧
                   truthy (prop ds "backgroundColor") = true) l.

(** A browser with hues [40, 41, 42, ...] whose engine finds no string,
    array or object greater than zero. *)
Definition plain_browser : Browser :=
  {| js := counting_world;
     hues := λ n, N.of_nat (40 + n);
     compare_zero := λ _, Normal false;
     errors := [];
     storage := ∅;
     classes := ∅ |}.

Definition idle : AppState :=
  {| conversation := None; loading := false; error := None;
     query := "Show me total sales per category"; darkMode := false |}.

(** [{answer: "Sales by quarter", chart_type: "bar",
      chart_config: {labels: ["Q1", "Q2"], datasets: [{data: [100, 200]}]}}] *)
Definition sales_reply : JsVal :=
  obj [("answer", JStr "Sales by quarter");
       ("chart_type", JStr "bar");
       ("chart_config", quarterly)].

(** The same reply without [labels]. *)
Definition unlabelled_reply : JsVal :=
  obj [("answer", JStr "Sales by quarter");
       ("chart_type", JStr "bar");
       ("chart_config", obj [("datasets",
                              JArr [obj [("data", JArr [JNum 100; JNum 200])]])])].

(** The data after the colouring pass over a non-empty array. *)
Definition with_datasets (d c : gmap string JsVal) (l' : list JsVal) : JsVal :=
  JObj (<["chart_config" := JObj (<["datasets" := JArr l']> c)]> d).


(** * The theme: [index.js] and the effects of [App] *)

Definition with_page (b : Browser) (storage' : gmap string string)
    (classes' : gset string) : Browser :=
  {| js := js b; hues := hues b; compare_zero := compare_zero b;
     errors := errors b; storage := storage'; classes := classes' |}.

(** [localStorage.getItem("appTheme") === "dark"] *)
Definition saved_dark (b : Browser) : bool :=
  bool_decide (storage b !! "appTheme" = Some "dark").

(** [index.js], before React mounts: the saved theme picks the class added
    to [document.body]. *)
Definition boot (b : Browser) : Browser :=
  if saved_dark b then with_page b (storage b) ({["dark-mode"]} ∪ classes b)
  else with_page b (storage b) ({["light-mode"]} ∪ classes b).

(** The initial state of [App] (lines 8-14). *)
Definition initial_state (b : Browser) : AppState :=
  {| conversation := None; loading := false; error := None;
     query := "Show me total sales per category";
     darkMode := saved_dark b |}.

(** The effect that follows [darkMode] (lines 62-70). *)
Definition theme_effect (darkMode : bool) (b : Browser) : Browser :=
  if darkMode then
    with_page b (<["appTheme" := "dark"]> (storage b))
              ({["dark-mode"]} ∪ classes b)
  else
    with_page b (<["appTheme" := "light"]> (storage b))
              (classes b ∖ {["dark-mode"]}).

(** Mounting [App]: the first render, then its two effects, the first
    taken up to the [await] of [fetchData(query)]. *)
Definition mount (b : Browser) : AppState * Browser :=
  (fetch_begin (initial_state b), theme_effect (saved_dark b) b).

(** What can happen to the mounted page: the theme button is clicked, the
    text area changes, a query is submitted (the submit button or a sample
    button), a request settles. *)
Inductive Event : Type :=
| ToggleTheme
| Typed (value : string)
| Submitted (newQuery : string)
| Settled (userQuery : string) (reply : Reply).

Definition step (ev : Event) (page : AppState * Browser) : AppState * Browser :=
  let (s, b) := page in
  match ev with
  | ToggleTheme =>
      ({| conversation := conversation s; loading := loading s;
          error := error s; query := query s;
          darkMode := negb (darkMode s) |},
       theme_effect (negb (darkMode s)) b)
  | Typed value =>
      ({| conversation := conversation s; loading := loading s;
          error := error s; query := value; darkMode := darkMode s |}, b)
  | Submitted newQuery => (handleQuerySubmit newQuery s, b)
  | Settled userQuery reply => fetch_end userQuery reply s b
  end.

(** The page after [index.js], the mount and a sequence of events. *)
Definition page_load (b : Browser) (events : list Event) : AppState * Browser :=
  foldl (λ page ev, step ev page) (mount (boot b)) events.

(** What the theme effect establishes and every event keeps. *)
Definition theme_consistent (page : AppState * Browser) : Prop :=
  storage (snd page) !! "appTheme"
    = Some (if darkMode (fst page) then "dark" else "light") ∧
  ("dark-mode" ∈ classes (snd page) ↔ darkMode (fst page) = true).

(** The conversation [fetchData] stores for a reply, if it stores one. *)
Definition stored (userQuery : string) (data : JsVal) (b : Browser)
    : Conversation :=
  match run (on_resolved (hues b) (compare_zero b) userQuery data) (js b) with
  | Normal conv => conv
  | Throw _ =>
      {| user_text := ""; bot_text := JNull; bot_chartType := JNull;
         bot_chartConfig := JNull; bot_sql := JNull; bot_raw := JNull |}
  end.

(** The JavaScript world [fetchData] leaves behind for a reply. *)
Definition js_after (userQuery : string) (data : JsVal) (b : Browser) : World :=
  snd (on_resolved (hues b) (compare_zero b) userQuery data (js b)).

(** [{chart_type: "bar", chart_config: {datasets: [
      {data: "n/a", backgroundColor: "teal"},
      {data: [3, 5], backgroundColor: "navy"}]}}] *)
Definition coloured_broken_reply : JsVal :=
  obj [("chart_type", JStr "bar");
       ("chart_config",
        obj [("datasets",
              JArr [obj [("data", JStr "n/a"); ("backgroundColor", JStr "teal")];
                    obj [("data", JArr [JNum 3; JNum 5]);
                         ("backgroundColor", JStr "navy")]])])].

(** * Properties *)

(** ** Stepping through the monad *)

Lemma bind_run {A B} (m : JS A) (f : A → JS B) (w : World) :
  (m ≫= f) w =
  match m w with
  | (Normal a, w') => f a w'
  | (Throw e, w') => (Throw e, w')
  end.
Proof. reflexivity. Qed.

Lemma fmap_run {A B} (f : A → B) (m : JS A) (w : World) :
  (f <$> m) w =
  match m w with
  | (Normal a, w') => (Normal (f a), w')
  | (Throw e, w') => (Throw e, w')
  end.
Proof.
  unfold fmap, JS_fmap. rewrite bind_run. by destruct (m w) as [[a|e] w'].
Qed.

Lemma bind_normal_inv {A B} (m : JS A) (f : A → JS B) w b w' :
  (m ≫= f) w = (Normal b, w') →
  ∃ a w1, m w = (Normal a, w1) ∧ f a w1 = (Normal b, w').
Proof.
  rewrite bind_run. destruct (m w) as [[a|e] w1]; [eauto | discriminate].
Qed.

Ltac js_step := repeat (rewrite bind_run; cbn [mret JS_ret]).

Lemma advance_0 w : advance 0 w = w.
Proof. destruct w as [e p c]. unfold advance; simpl. by rewrite Nat.add_0_r. Qed.

Lemma advance_advance n m w : advance m (advance n w) = advance (n + m) w.
Proof. unfold advance; simpl. f_equal. lia. Qed.

Lemma randomColor_run alpha w :
  randomColor alpha w =
  (Normal (color_at (entropy w) (drawn w) alpha), advance 3 w).
Proof.
  destruct w as [e p c]. unfold color_at, advance. cbn [entropy drawn console].
  replace (p + 1) with (S p) by lia. replace (p + 2) with (S (S p)) by lia.
  replace (p + 3) with (S (S (S p))) by lia. reflexivity.
Qed.

Lemma palette_run labels w :
  mapM (λ _ : JsVal, JStr <$> randomColor "0.6") labels w =
  (Normal (palette (entropy w) (drawn w) labels),
   advance (3 * length labels) w).
Proof.
  revert w. induction labels as [|l ls IH]; intros w.
  - cbn. by rewrite advance_0.
  - cbn [mapM]. rewrite bind_run, fmap_run, randomColor_run.
    rewrite bind_run, IH. rewrite advance_advance.
    unfold palette; cbn [imap length entropy drawn advance].
    unfold mret, JS_ret. f_equal.
    + f_equal. f_equal.
      * by rewrite Nat.mul_0_r, Nat.add_0_r.
      * apply imap_ext. intros j x _. cbn. do 2 f_equal. lia.
    + f_equal. lia.
Qed.

Lemma palette_length e p labels : length (palette e p labels) = length labels.
Proof. unfold palette. by rewrite length_imap. Qed.

Lemma palette_lookup e p labels j :
  j < length labels →
  palette e p labels !! j = Some (JStr (color_at e (p + 3 * j) "0.6")).
Proof.
  intros Hj. unfold palette. rewrite list_lookup_imap.
  destruct (lookup_lt_is_Some_2 labels j Hj) as [x ->]. reflexivity.
Qed.

(** ** Which series survive the filter *)

Lemma has_data_run v w :
  nullish v = false → has_data v w = (Normal (valid_series v), w).
Proof. by destruct v. Qed.

Lemma has_data_normal_inv v w b w' :
  has_data v w = (Normal b, w') →
  nullish v = false ∧ b = valid_series v ∧ w' = w.
Proof. destruct v; cbn; intros [= <- <-]; done. Qed.

Lemma filterM_has_data_run raw w :
  Forall (λ v, nullish v = false) raw →
  filterM has_data raw w = (Normal (List.filter valid_series raw), w).
Proof.
  induction 1 as [|v raw Hv _ IH]; [done|].
  cbn [filterM List.filter]. rewrite bind_run, has_data_run by done.
  rewrite bind_run, IH. by destruct (valid_series v).
Qed.

Lemma filterM_has_data_inv raw w kept w' :
  filterM has_data raw w = (Normal kept, w') →
  Forall (λ v, nullish v = false) raw ∧
  kept = List.filter valid_series raw ∧ w' = w.
Proof.
  revert kept w'. induction raw as [|v raw IH]; intros kept w'.
  - cbn. intros [= <- <-]. done.
  - cbn [filterM]. intros H.
    apply bind_normal_inv in H as (b & w1 & Hb & H).
    apply has_data_normal_inv in Hb as (Hv & -> & ->).
    apply bind_normal_inv in H as (rest & w2 & Hrest & H).
    destruct (IH _ _ Hrest) as (Hall & -> & ->).
    cbn in H. injection H as <- <-.
    split; [by constructor|]. split; [|done].
    cbn. by destruct (valid_series v).
Qed.

Lemma valid_series_obj v :
  valid_series v = true →
  ∃ o xs, v = JObj o ∧ o !! "data" = Some (JArr xs) ∧ 0 < length xs.
Proof.
  destruct v as [| | | | | |o]; try done. cbn. unfold prop.
  destruct (o !! "data") as [[| | | | |xs|]|] eqn:E; try done.
  intros H%bool_decide_eq_true. eauto.
Qed.

(** ** Label resolution and the surviving series *)

Lemma fallback_labels_run raw w :
  fallback_labels raw w =
  (match first_series_labels raw with
   | Some ls => Normal ls
   | None => Throw not_a_function
   end, w).
Proof.
  destruct raw as [|[| | | | | |d] raw]; try reflexivity.
  unfold fallback_labels, first_series_labels, not_a_function.
  cbn [at_index lookup list_lookup default].
  rewrite bind_run. cbn [mret JS_ret]. cbv [id]. cbn [nullish get].
  rewrite bind_run. cbn [mret JS_ret]. by destruct (prop d "data").
Qed.

Lemma with_defaults_run chartType labels o w :
  with_defaults chartType labels (JObj o) w =
  (Normal (series_after chartType labels (entropy w) (drawn w) o),
   advance (series_draws chartType labels o) w).
Proof.
  unfold with_defaults, series_after, series_draws, background_for,
    background_draws, border_for.
  cbn [get spread]. js_step.
  destruct (truthy (prop o "backgroundColor")) eqn:Hbg;
    [cbn [mret JS_ret]
    |destruct (is_str chartType "line") eqn:Hline;
       [rewrite fmap_run, randomColor_run|rewrite fmap_run, palette_run]];
    js_step;
    (destruct (truthy (prop o "borderColor")) eqn:Hbd;
       [cbn [mret JS_ret]|rewrite fmap_run, randomColor_run]);
    cbn [entropy drawn advance];
    rewrite ?Nat.add_0_r; try reflexivity.
  - by rewrite advance_0.
  - by rewrite advance_advance.
  - by rewrite advance_advance.
Qed.

Lemma mapM_with_defaults_run chartType labels kept w :
  Forall (λ v, valid_series v = true) kept →
  mapM (with_defaults chartType labels) kept w =
  (Normal (series_from chartType labels (entropy w) (drawn w) (as_object <$> kept)),
   advance (total_draws chartType labels (as_object <$> kept)) w).
Proof.
  intros Hkept. revert w.
  induction Hkept as [|v kept Hv _ IH]; intros w.
  - cbn. by rewrite advance_0.
  - apply valid_series_obj in Hv as (o & xs & -> & _ & _).
    cbn [mapM fmap list_fmap as_object series_from total_draws].
    rewrite bind_run, with_defaults_run, bind_run, IH.
    cbn [mret JS_ret entropy drawn advance]. by rewrite advance_advance.
Qed.

Lemma series_from_length chartType labels e p os :
  length (series_from chartType labels e p os) = length os.
Proof. revert p. induction os as [|o os IH]; intros p; cbn; [done|by rewrite IH]. Qed.

Lemma series_from_Forall2 chartType labels e p os :
  Forall2 (λ o out, ∃ q, p ≤ q ∧ out = series_after chartType labels e q o)
          os (series_from chartType labels e p os).
Proof.
  revert p. induction os as [|o os IH]; intros p; cbn; constructor; [eauto|].
  eapply Forall2_impl; [apply IH|]. intros o' out (q & Hq & ->).
  exists q. split; [lia|done].
Qed.

Lemma filter_valid_Forall raw :
  Forall (λ v, valid_series v = true) (List.filter valid_series raw).
Proof.
  apply List.Forall_forall. intros v Hv. by apply List.filter_In in Hv as [_ ?].
Qed.

(** The same, read against the raw values that passed the filter. *)
Lemma series_from_kept chartType labels e p kept :
  Forall (λ v, valid_series v = true) kept →
  Forall2 (λ v out, ∃ ds q, v = JObj ds ∧ p ≤ q ∧
                     out = series_after chartType labels e q ds)
          kept (series_from chartType labels e p (as_object <$> kept)).
Proof.
  intros Hkept. revert p. induction Hkept as [|v kept Hv _ IH]; intros p.
  - constructor.
  - apply valid_series_obj in Hv as (ds & xs & -> & _ & _).
    cbn [fmap list_fmap as_object series_from]. constructor; [by eauto|].
    eapply Forall2_impl; [apply IH|]. intros v out (ds' & q & -> & Hq & ->).
    exists ds', q. split; [done|]. split; [lia|done].
Qed.

(** ** [safeChartConfig], end to end *)

Lemma safeChartConfig_run o raw chartType w :
  o !! "datasets" = Some (JArr raw) →
  Forall (λ v, nullish v = false) raw →
  safeChartConfig (JObj o) chartType w =
  match resolved_labels o raw with
  | None => (Throw not_a_function, w)
  | Some ls =>
      match survivors raw with
      | [] => (Normal None, warned NoValidDatasets w)
      | _ =>
          (Normal (Some {| labels := ls;
                           datasets := series_from chartType ls (entropy w)
                                         (drawn w) (survivors raw) |}),
           advance (total_draws chartType ls (survivors raw)) w)
      end
  end.
Proof.
  intros Hds Hraw. unfold safeChartConfig, resolved_labels.
  assert (Hd : prop o "datasets" = JArr raw) by (unfold prop; by rewrite Hds).
  cbn [truthy negb get]. js_step. rewrite Hd. js_step.
  destruct (prop o "labels") as [| | | | |ls0|];
    rewrite ?fallback_labels_run;
    try (destruct (first_series_labels raw) as [ls|]; [|reflexivity]);
    cbn [mret JS_ret]; js_step;
    rewrite filterM_has_data_run by done; js_step;
    rewrite mapM_with_defaults_run by apply filter_valid_Forall;
    fold (survivors raw); js_step;
    destruct (survivors raw) as [|first rest];
    cbn [series_from total_draws length]; rewrite ?advance_0; reflexivity.
Qed.

Lemma prop_lookup (o : gmap string JsVal) k v :
  o !! k = Some v → prop o k = v.
Proof. unfold prop. by intros ->. Qed.

Lemma prop_array_lookup (o : gmap string JsVal) k l :
  prop o k = JArr l → o !! k = Some (JArr l).
Proof. unfold prop. by destruct (o !! k) as [v|]; cbn; [intros ->|]. Qed.

(** A run that completes normally met no [null] or [undefined] series. *)
Lemma safeChartConfig_normal_no_null o raw chartType w r w' :
  o !! "datasets" = Some (JArr raw) →
  safeChartConfig (JObj o) chartType w = (Normal r, w') →
  Forall (λ v, nullish v = false) raw.
Proof.
  intros Hd H. unfold safeChartConfig in H. cbn [truthy negb get] in H.
  apply bind_normal_inv in H as (ds & w1 & Hget & H).
  cbn in Hget. injection Hget as <- <-.
  rewrite (prop_lookup _ _ _ Hd) in H.
  apply bind_normal_inv in H as (given & w1 & _ & H).
  apply bind_normal_inv in H as (ls & w2 & _ & H).
  apply bind_normal_inv in H as (kept & w3 & Hkept & _).
  by apply filterM_has_data_inv in Hkept as (? & _).
Qed.

Lemma datasets_array_some chartConfig raw :
  datasets_array chartConfig = Some raw →
  ∃ o, chartConfig = JObj o ∧ o !! "datasets" = Some (JArr raw).
Proof.
  destruct chartConfig as [| | | | | |o]; try done. cbn.
  destruct (prop o "datasets") as [| | | | |l|] eqn:Hd; try done.
  intros [= ->]. exists o. split; [done|]. by apply prop_array_lookup.
Qed.

(** Without a [datasets] array the input is rejected with a warning. *)
Lemma safeChartConfig_rejects chartConfig chartType w :
  datasets_array chartConfig = None →
  safeChartConfig chartConfig chartType w
  = (Normal None, warned (InvalidChartConfig chartConfig) w).
Proof.
  intros Hnone. unfold safeChartConfig.
  destruct chartConfig as [| |b|z|s|l|o]; try reflexivity.
  - by destruct b.
  - cbn [truthy]. by destruct (negb (negb (z =? 0)%Z)).
  - cbn [truthy]. by destruct (negb (negb (String.eqb s ""))).
  - cbn [truthy negb get]. js_step. cbn in Hnone.
    by destruct (prop o "datasets").
Qed.

(** Everything a successful clean-up tells about its input. *)
Lemma safeChartConfig_some_inv chartConfig chartType w cfg w' :
  safeChartConfig chartConfig chartType w = (Normal (Some cfg), w') →
  ∃ o raw ls,
    chartConfig = JObj o ∧
    o !! "datasets" = Some (JArr raw) ∧
    Forall (λ v, nullish v = false) raw ∧
    resolved_labels o raw = Some ls ∧
    survivors raw ≠ [] ∧
    cfg = {| labels := ls;
             datasets := series_from chartType ls (entropy w) (drawn w)
                           (survivors raw) |} ∧
    w' = advance (total_draws chartType ls (survivors raw)) w.
Proof.
  intros H.
  destruct (datasets_array chartConfig) as [raw|] eqn:Harr;
    [|by rewrite safeChartConfig_rejects in H].
  apply datasets_array_some in Harr as (o & -> & Hd).
  pose proof (safeChartConfig_normal_no_null _ _ _ _ _ _ Hd H) as Hraw.
  rewrite (safeChartConfig_run o raw) in H by done.
  destruct (resolved_labels o raw) as [ls|] eqn:Hls; [|discriminate].
  destruct (survivors raw) as [|s0 ss] eqn:Hs; [discriminate|].
  injection H as <- <-. exists o, raw, ls. rewrite Hs. done.
Qed.

(** A clean-up that returns nothing had no array to read or no series left. *)
Lemma safeChartConfig_none_inv chartConfig chartType w w' :
  safeChartConfig chartConfig chartType w = (Normal None, w') →
  datasets_array chartConfig = None ∨
  ∃ raw, datasets_array chartConfig = Some raw ∧ survivors raw = [].
Proof.
  intros H. destruct (datasets_array chartConfig) as [raw|] eqn:Harr; [|by left].
  right. exists raw. split; [done|].
  apply datasets_array_some in Harr as (o & -> & Hd).
  pose proof (safeChartConfig_normal_no_null _ _ _ _ _ _ Hd H) as Hraw.
  rewrite (safeChartConfig_run o raw) in H by done.
  destruct (resolved_labels o raw) as [ls|]; [|discriminate].
  by destruct (survivors raw).
Qed.

(** The surviving series keep their [data]; label and colours are set. *)
Lemma series_after_data chartType labels e p o :
  series_after chartType labels e p o !! "data" = o !! "data".
Proof. unfold series_after. by do 3 rewrite lookup_insert_ne by done. Qed.

Lemma series_after_other chartType labels e p o k :
  k ≠ "label" → k ≠ "backgroundColor" → k ≠ "borderColor" →
  series_after chartType labels e p o !! k = o !! k.
Proof. intros. unfold series_after. by do 3 rewrite lookup_insert_ne by done. Qed.

Lemma series_after_label chartType labels e p o :
  prop (series_after chartType labels e p o) "label"
  = or_else (prop o "label") (JStr "Series").
Proof.
  unfold series_after, prop at 1.
  do 2 rewrite lookup_insert_ne by done. by rewrite lookup_insert_eq.
Qed.

Lemma series_after_background chartType labels e p o :
  prop (series_after chartType labels e p o) "backgroundColor"
  = background_for chartType labels e p o.
Proof.
  unfold series_after, prop at 1.
  rewrite lookup_insert_ne by done. by rewrite lookup_insert_eq.
Qed.

Lemma series_after_border chartType labels e p o :
  prop (series_after chartType labels e p o) "borderColor"
  = border_for e (p + background_draws chartType labels o) o.
Proof. unfold series_after, prop at 1. by rewrite lookup_insert_eq. Qed.

Lemma survivors_Forall raw :
  Forall (λ o, ∃ xs, o !! "data" = Some (JArr xs) ∧ 0 < length xs)
         (survivors raw).
Proof.
  unfold survivors. apply Forall_fmap.
  eapply Forall_impl; [apply filter_valid_Forall|].
  intros v (o & xs & -> & Hdata & Hlen)%valid_series_obj. cbn. eauto.
Qed.

Lemma series_from_well_formed chartType labels e p os :
  Forall (λ o, ∃ xs, o !! "data" = Some (JArr xs) ∧ 0 < length xs) os →
  Forall (λ ds, ∃ xs, ds !! "data" = Some (JArr xs) ∧ 0 < length xs)
         (series_from chartType labels e p os).
Proof.
  intros H. revert p. induction H as [|o os Ho _ IH]; intros p; cbn.
  - constructor.
  - constructor; [|apply IH]. by rewrite series_after_data.
Qed.

Lemma safeChartConfig_well_formed chartConfig chartType w cfg w' :
  safeChartConfig chartConfig chartType w = (Normal (Some cfg), w') →
  well_formed cfg.
Proof.
  intros (o & raw & ls & -> & _ & _ & _ & Hne & -> & _)%safeChartConfig_some_inv.
  split; cbn.
  - intros Hnil. apply Hne. apply (f_equal length) in Hnil.
    rewrite series_from_length in Hnil. by destruct (survivors raw).
  - apply series_from_well_formed, survivors_Forall.
Qed.

(** ** The table *)

Lemma series_data_lookup ds xs :
  ds !! "data" = Some (JArr xs) → series_data ds = xs.
Proof. intros H. unfold series_data. by rewrite (prop_lookup _ _ _ H). Qed.

Lemma table_cell_run rowIndex ds w :
  has_data_array ds →
  table_cell rowIndex ds w = (Normal (shown (series_data ds) rowIndex), w).
Proof.
  intros (xs & Hxs & _). unfold table_cell.
  rewrite (series_data_lookup _ _ Hxs), (prop_lookup _ _ _ Hxs). reflexivity.
Qed.

Lemma table_cells_run rowIndex dss w :
  Forall has_data_array dss →
  mapM (table_cell rowIndex) dss w =
  (Normal ((λ ds, shown (series_data ds) rowIndex) <$> dss), w).
Proof.
  induction 1 as [|ds dss Hds _ IH]; [done|].
  cbn [mapM]. js_step. rewrite table_cell_run by done. js_step.
  by rewrite IH.
Qed.

Lemma table_row_run dss rowIndex label w :
  Forall has_data_array dss →
  table_row dss rowIndex label w = (Normal (row_at dss rowIndex label), w).
Proof.
  intros Hdss. unfold table_row. js_step. by rewrite table_cells_run.
Qed.

Lemma table_body_run dss start ls w :
  Forall has_data_array dss →
  table_body dss start ls w =
  (Normal (imap (λ i label, row_at dss (start + i) label) ls), w).
Proof.
  intros Hdss. revert start. induction ls as [|l ls IH]; intros start; [done|].
  cbn [table_body imap]. js_step. rewrite table_row_run by done.
  js_step. rewrite IH. unfold mret, JS_ret. rewrite Nat.add_0_r.
  do 3 f_equal. apply imap_ext. intros i x _. cbn. f_equal. lia.
Qed.

Lemma renderTable_run cfg w :
  well_formed cfg →
  renderTable (Some cfg) w =
  (Normal (Table (JStr "Category" :: ((λ ds, prop ds "label") <$> datasets cfg))
                 (imap (row_at (datasets cfg)) (labels cfg))), w).
Proof.
  intros [_ Hdss]. unfold renderTable. js_step.
  rewrite table_body_run by done. reflexivity.
Qed.

Lemma renderChart_table cfg isDarkMode w :
  renderChart (Some cfg) (JStr "table") isDarkMode w = renderTable (Some cfg) w.
Proof. reflexivity. Qed.

(** * The claims *)

(** ** The fallback chart and the table *)

(** C4: whatever the chart kind, a missing configuration renders the fixed
    fallback: a line chart over the labels A, B, C, D with the single series
    10, 20, 15, 30, titled "Default Chart (No Valid Data)". *)
Theorem fallback_for_missing_config (chartType : JsVal) (isDarkMode : bool)
    (w : World) :
  ∃ options series,
    renderChart None chartType isDarkMode w
      = (Normal (Line defaultData options), w) ∧
    labels defaultData = [JStr "A"; JStr "B"; JStr "C"; JStr "D"] ∧
    datasets defaultData = [series] ∧
    series !! "data" = Some (JArr [JNum 10; JNum 20; JNum 15; JNum 30]) ∧
    title_text (title (plugins options)) = "Default Chart (No Valid Data)".
Proof.
  eexists _, _. split; [reflexivity|]. split; [reflexivity|].
  split; [reflexivity|]. split; reflexivity.
Qed.

(** C5: for a cleaned-up configuration and kind "table" the grid has one row
    per label and one cell per series in each row; the cell at (row, column)
    is the entry [data[row]] of that column's series when there is one (and
    it is not null), and the text "N/A" otherwise; no exception is raised,
    however short a series is. *)
Theorem table_cells_or_sentinel (chartConfig chartType : JsVal)
    (w w' w0 : World) (cfg : ChartData) (isDarkMode : bool) :
  safeChartConfig chartConfig chartType w = (Normal (Some cfg), w') →
  ∃ head body,
    renderChart (Some cfg) (JStr "table") isDarkMode w0
      = (Normal (Table head body), w0) ∧
    length body = length (labels cfg) ∧
    ∀ r label, labels cfg !! r = Some label →
      ∃ row, body !! r = Some row ∧
        category row = label ∧
        length (cells row) = length (datasets cfg) ∧
        ∀ c ds, datasets cfg !! c = Some ds →
          ∃ xs cell, ds !! "data" = Some (JArr xs) ∧
            cells row !! c = Some cell ∧
            (xs !! r = None → cell = JStr "N/A") ∧
            (∀ v, xs !! r = Some v → nullish v = false → cell = v) ∧
            (∀ v, xs !! r = Some v → nullish v = true → cell = JStr "N/A").
Proof.
  intros Hcfg%safeChartConfig_well_formed.
  eexists _, _. rewrite renderChart_table, renderTable_run by done.
  split; [reflexivity|]. split; [by rewrite length_imap|].
  intros r label Hr. exists (row_at (datasets cfg) r label).
  rewrite list_lookup_imap, Hr. unfold row_at; cbn [category cells].
  split; [reflexivity|]. split; [reflexivity|].
  split; [by rewrite length_fmap|].
  intros c ds Hc. destruct Hcfg as [_ Hall].
  destruct (Forall_lookup_1 _ _ _ _ Hall Hc) as (xs & Hxs & _).
  exists xs, (shown xs r). split; [done|].
  split; [by rewrite list_lookup_fmap, Hc; cbn; rewrite (series_data_lookup _ _ Hxs)|].
  unfold shown, coalesce. split; [by intros ->|].
  split; intros v -> Hv; cbn; by rewrite Hv.
Qed.

(** C9: for a cleaned-up configuration and kind "table" the grid has exactly
    as many rows as there are labels (none when there are no labels), so
    entries of a series at indices from [labels.length] on are not rendered:
    replacing them by anything else leaves the table unchanged. *)
Theorem table_rows_follow_labels (chartConfig chartType : JsVal)
    (w w' w0 : World) (cfg : ChartData) (isDarkMode : bool) :
  safeChartConfig chartConfig chartType w = (Normal (Some cfg), w') →
  ∃ head body,
    renderChart (Some cfg) (JStr "table") isDarkMode w0
      = (Normal (Table head body), w0) ∧
    length body = length (labels cfg) ∧
    (labels cfg = [] → body = []) ∧
    (∀ r, length (labels cfg) ≤ r → body !! r = None) ∧
    ∀ other : list (gmap string JsVal),
      Forall2 (λ ds ds', ∃ xs xs',
                 ds !! "data" = Some (JArr xs) ∧
                 ds' !! "data" = Some (JArr xs') ∧ 0 < length xs' ∧
                 take (length (labels cfg)) xs' = take (length (labels cfg)) xs ∧
                 prop ds' "label" = prop ds "label")
              (datasets cfg) other →
      renderChart (Some {| labels := labels cfg; datasets := other |})
                  (JStr "table") isDarkMode w0
        = (Normal (Table head body), w0).
Proof.
  intros Hcfg%safeChartConfig_well_formed.
  eexists _, _. rewrite renderChart_table, renderTable_run by done.
  split; [reflexivity|]. split; [by rewrite length_imap|].
  split; [by intros ->|].
  split; [intros r Hr; apply lookup_ge_None_2; by rewrite length_imap|].
  intros other Hother.
  assert (Hwf : well_formed {| labels := labels cfg; datasets := other |}).
  { split; cbn.
    - destruct Hcfg as [Hne _]. intros ->. apply Forall2_length in Hother.
      by destruct (datasets cfg).
    - apply Forall_lookup_2. intros c ds' Hc.
      destruct (Forall2_lookup_r _ _ _ _ _ Hother Hc)
        as (ds & _ & xs & xs' & _ & Hxs' & Hlen & _).
      by exists xs'. }
  rewrite renderChart_table, renderTable_run by done. cbn [labels datasets].
  assert (Hhead : (λ ds, prop ds "label") <$> other
                  = (λ ds, prop ds "label") <$> datasets cfg).
  { apply list_eq. intros c. rewrite !list_lookup_fmap.
    destruct (other !! c) as [ds'|] eqn:Hc.
    + destruct (Forall2_lookup_r _ _ _ _ _ Hother Hc)
        as (ds & Hds & xs & xs' & _ & _ & _ & _ & Hlab).
      rewrite Hds. cbn. by rewrite Hlab.
    + apply lookup_ge_None_1 in Hc.
      rewrite <- (Forall2_length _ _ _ Hother) in Hc.
      by rewrite (lookup_ge_None_2 _ _ Hc). }
  assert (Hbody : imap (row_at other) (labels cfg)
                  = imap (row_at (datasets cfg)) (labels cfg)).
  { apply list_eq. intros r. rewrite !list_lookup_imap.
    destruct (labels cfg !! r) as [label|] eqn:Hr; [|done]. cbn.
    apply lookup_lt_Some in Hr. unfold row_at. do 2 f_equal.
    apply list_eq. intros c. rewrite !list_lookup_fmap.
    destruct (other !! c) as [ds'|] eqn:Hc.
    + destruct (Forall2_lookup_r _ _ _ _ _ Hother Hc)
        as (ds & Hds & xs & xs' & Hxs & Hxs' & _ & Htake & _).
      rewrite Hds. cbn. f_equal.
      rewrite (series_data_lookup _ _ Hxs), (series_data_lookup _ _ Hxs').
      unfold shown. f_equal. f_equal.
      rewrite <- (lookup_take_lt xs' (length (labels cfg)) r) by done.
      rewrite <- (lookup_take_lt xs (length (labels cfg)) r) by done.
      by rewrite Htake.
    + apply lookup_ge_None_1 in Hc.
      rewrite <- (Forall2_length _ _ _ Hother) in Hc.
      by rewrite (lookup_ge_None_2 _ _ Hc). }
  by rewrite Hhead, Hbody.
Qed.

(** ** The clean-up *)

(** C10: the series of a cleaned-up configuration are the raw series that
    pass the filter, in their original order; each keeps its [data] and
    every other field except [label], [backgroundColor] and [borderColor]
    exactly as the raw series has it. *)
Theorem surviving_series_carried_through (chartConfig chartType : JsVal)
    (w w' : World) (cfg : ChartData) :
  safeChartConfig chartConfig chartType w = (Normal (Some cfg), w') →
  ∃ o raw,
    chartConfig = JObj o ∧ o !! "datasets" = Some (JArr raw) ∧
    Forall2 (λ (v : JsVal) (out : gmap string JsVal),
               ∃ ds, v = JObj ds ∧
                 out !! "data" = ds !! "data" ∧
                 ∀ k, k ≠ "label" → k ≠ "backgroundColor" →
                      k ≠ "borderColor" → out !! k = ds !! k)
            (List.filter valid_series raw) (datasets cfg).
Proof.
  intros (o & raw & ls & -> & Hds & _ & _ & _ & -> & _)%safeChartConfig_some_inv.
  exists o, raw. split; [done|]. split; [done|]. cbn [datasets].
  unfold survivors.
  eapply Forall2_impl;
    [apply series_from_kept, filter_valid_Forall|].
  intros v out (ds & q & -> & _ & ->). exists ds. split; [done|].
  split; [apply series_after_data|]. intros k ? ? ?.
  by apply series_after_other.
Qed.

Lemma series_after_structure chartType labels e1 p1 e2 p2 o k :
  k ≠ "backgroundColor" → k ≠ "borderColor" →
  series_after chartType labels e1 p1 o !! k
  = series_after chartType labels e2 p2 o !! k.
Proof.
  intros. unfold series_after.
  do 2 rewrite (lookup_insert_ne _ "borderColor") by done.
  by do 2 rewrite (lookup_insert_ne _ "backgroundColor") by done.
Qed.

Lemma series_from_structure chartType labels e1 p1 e2 p2 os :
  Forall2 (λ a b : gmap string JsVal,
             ∀ k, k ≠ "backgroundColor" → k ≠ "borderColor" → b !! k = a !! k)
          (series_from chartType labels e1 p1 os)
          (series_from chartType labels e2 p2 os).
Proof.
  revert p1 p2. induction os as [|o os IH]; intros p1 p2; cbn; constructor.
  - intros k ? ?. by apply series_after_structure.
  - apply IH.
Qed.

(** C8: cleaning the same valid input twice, under any two states of the
    random source, gives the same labels, the same number of series and, at
    each position, the same data; indeed every field other than the two
    colours agrees. *)
Theorem structure_is_reproducible (chartConfig chartType : JsVal)
    (w1 w1' w2 : World) (cfg1 : ChartData) :
  safeChartConfig chartConfig chartType w1 = (Normal (Some cfg1), w1') →
  ∃ cfg2 w2',
    safeChartConfig chartConfig chartType w2 = (Normal (Some cfg2), w2') ∧
    labels cfg2 = labels cfg1 ∧
    length (datasets cfg2) = length (datasets cfg1) ∧
    ∀ i ds1 ds2,
      datasets cfg1 !! i = Some ds1 → datasets cfg2 !! i = Some ds2 →
      ds2 !! "data" = ds1 !! "data" ∧
      ∀ k, k ≠ "backgroundColor" → k ≠ "borderColor" → ds2 !! k = ds1 !! k.
Proof.
  intros (o & raw & ls & -> & Hds & Hraw & Hls & Hne & -> & _)%safeChartConfig_some_inv.
  rewrite (safeChartConfig_run o raw chartType w2) by done. rewrite Hls.
  destruct (survivors raw) as [|s0 ss] eqn:Hs; [done|].
  eexists _, _. split; [reflexivity|]. cbn [labels datasets].
  split; [done|]. split; [by rewrite !series_from_length|].
  intros i ds1 ds2 H1 H2.
  pose proof (series_from_structure chartType ls (entropy w1) (drawn w1)
                (entropy w2) (drawn w2) (s0 :: ss)) as Hall.
  pose proof (Forall2_lookup_lr _ _ _ _ _ _ Hall H1 H2) as Hk.
  split; [by apply Hk|exact Hk].
Qed.

(** C7 (amended): each surviving series keeps the background colour it
    brings along when that is truthy (a non-empty string, an array).  When
    it is missing or falsy (the empty string included) the series gets, for
    kind "line", the one text "rgba(r, g, b, 0.2)" built from three random
    channel values, and for every other kind an array with one text
    "rgba(r, g, b, 0.6)" per label, each from three draws of its own.  A
    truthy border colour is kept likewise, and otherwise the border is a
    text "rgba(r, g, b, 1)" from three further draws. *)
Theorem colours_resolved (chartConfig chartType : JsVal)
    (w w' : World) (cfg : ChartData) :
  safeChartConfig chartConfig chartType w = (Normal (Some cfg), w') →
  ∃ o raw,
    chartConfig = JObj o ∧ o !! "datasets" = Some (JArr raw) ∧
    Forall2
      (λ (v : JsVal) (out : gmap string JsVal),
         ∃ ds p q, v = JObj ds ∧ drawn w ≤ p ∧ p ≤ q ∧
           prop out "backgroundColor" =
             (if truthy (prop ds "backgroundColor")
              then prop ds "backgroundColor"
              else if is_str chartType "line"
              then JStr ("rgba(" +:+ pretty (entropy w p) +:+ ", "
                           +:+ pretty (entropy w (p + 1)) +:+ ", "
                           +:+ pretty (entropy w (p + 2)) +:+ ", 0.2)")
              else JArr (imap (λ j _,
                           JStr ("rgba(" +:+ pretty (entropy w (p + 3 * j))
                                   +:+ ", "
                                   +:+ pretty (entropy w (p + 3 * j + 1))
                                   +:+ ", "
                                   +:+ pretty (entropy w (p + 3 * j + 2))
                                   +:+ ", 0.6)"))
                         (labels cfg))) ∧
           prop out "borderColor" =
             (if truthy (prop ds "borderColor")
              then prop ds "borderColor"
              else JStr ("rgba(" +:+ pretty (entropy w q) +:+ ", "
                           +:+ pretty (entropy w (q + 1)) +:+ ", "
                           +:+ pretty (entropy w (q + 2)) +:+ ", 1)")))
      (List.filter valid_series raw) (datasets cfg).
Proof.
  intros (o & raw & ls & -> & Hds & _ & _ & _ & -> & _)%safeChartConfig_some_inv.
  exists o, raw. split; [done|]. split; [done|]. cbn [datasets labels].
  unfold survivors.
  eapply Forall2_impl; [apply series_from_kept, filter_valid_Forall|].
  intros v out (ds & p & -> & Hp & ->).
  exists ds, p, (p + background_draws chartType ls ds).
  split; [done|]. split; [done|]. split; [lia|].
  rewrite series_after_background, series_after_border. split; reflexivity.
Qed.

(** C7 as stated fails: a series that provides the empty string as its
    background and border colour does not keep them; both are replaced by
    generated colours. *)
Lemma blank_colours_are_replaced :
  ∃ cfg out,
    run (safeChartConfig blank_colours (JStr "line")) counting_world
      = Normal (Some cfg) ∧
    datasets cfg = [out] ∧
    out !! "backgroundColor" = Some (JStr "rgba(7, 8, 9, 0.2)") ∧
    out !! "borderColor" = Some (JStr "rgba(10, 11, 12, 1)").
Proof.
  eexists _, _. split; [vm_compute; reflexivity|].
  split; [reflexivity|]. split; vm_compute; reflexivity.
Qed.

(** ** Label resolution *)

Lemma label_names_length xs : length (label_names xs) = length xs.
Proof. unfold label_names. by rewrite length_imap. Qed.

Lemma label_names_lookup xs i :
  i < length xs →
  label_names xs !! i = Some (JStr ("Label " +:+ pretty (i + 1))).
Proof.
  intros Hi. unfold label_names. rewrite list_lookup_imap.
  by destruct (lookup_lt_is_Some_2 xs i Hi) as [x ->].
Qed.

Lemma survivors_nonempty_head raw :
  survivors raw ≠ [] → ∃ first, head raw = Some first.
Proof. destruct raw as [|v raw]; [done|]. eauto. Qed.

(** C1 (amended): when [labels] of the raw input is an array it is used as
    it is.  Otherwise the labels of a cleaned-up configuration come from the
    first raw series [datasets[0]]: "Label 1", "Label 2", ... one per entry
    of its [data] array, and no labels at all when it is not an object or
    has no [data].  That series is the first surviving one whenever it is
    itself valid. *)
Theorem labels_resolution (chartConfig chartType : JsVal)
    (w w' : World) (cfg : ChartData) :
  safeChartConfig chartConfig chartType w = (Normal (Some cfg), w') →
  ∃ o raw first,
    chartConfig = JObj o ∧ o !! "datasets" = Some (JArr raw) ∧
    head raw = Some first ∧
    match prop o "labels" with
    | JArr given => labels cfg = given
    | _ =>
        match first with
        | JObj ds =>
            match prop ds "data" with
            | JArr xs =>
                length (labels cfg) = length xs ∧
                ∀ i, i < length xs →
                  labels cfg !! i = Some (JStr ("Label " +:+ pretty (i + 1)))
            | JUndefined | JNull => labels cfg = []
            | _ => False
            end
        | _ => labels cfg = []
        end
    end ∧
    (valid_series first = true →
     head (List.filter valid_series raw) = Some first).
Proof.
  intros (o & raw & ls & -> & Hds & _ & Hls & Hne & -> & _)%safeChartConfig_some_inv.
  destruct (survivors_nonempty_head raw Hne) as [first Hfirst].
  exists o, raw, first. split; [done|]. split; [done|]. split; [done|].
  cbn [labels]. destruct raw as [|v raw]; [done|]. injection Hfirst as ->.
  split; [|by cbn; intros ->].
  unfold resolved_labels in Hls.
  destruct (prop o "labels") as [| | | | |given|];
    try (by injection Hls);
    (destruct first as [| | | | | |ds]; try (by injection Hls);
     cbn in Hls; destruct (prop ds "data") as [| | | | |xs|];
     try (by injection Hls); try done;
     injection Hls as <-;
     split; [apply label_names_length|apply label_names_lookup]).
Qed.

(** C1 as stated fails: with a first series that is filtered out there are
    no labels although the first surviving series has two entries, and with
    series of lengths 1 and 2 there is one label, not two. *)
Lemma labels_not_from_first_survivor :
  (∃ cfg,
     run (safeChartConfig (obj [("datasets", JArr first_series_empty)])
                          (JStr "bar")) counting_world = Normal (Some cfg) ∧
     labels cfg = [] ∧
     labels_of_first_survivor first_series_empty
       = [JStr "Label 1"; JStr "Label 2"] ∧
     max_series_length cfg = 2) ∧
  (∃ cfg,
     run (safeChartConfig (obj [("datasets", JArr uneven_series)])
                          (JStr "bar")) counting_world = Normal (Some cfg) ∧
     labels cfg = [JStr "Label 1"] ∧
     max_series_length cfg = 2).
Proof.
  split; eexists; (split; [vm_compute; reflexivity|]); vm_compute; done.
Qed.

(** ** The line chart *)

Lemma existsb_false_lookup {A} (f : A → bool) (l : list A) i x :
  existsb f l = false → l !! i = Some x → f x = false.
Proof.
  revert i. induction l as [|y l IH]; intros i; [done|].
  cbn [existsb]. intros [Hy Hl]%orb_false_elim.
  destruct i as [|i]; cbn; [by intros [= <-]|by apply IH].
Qed.

Lemma restyle_spec ds :
  if is_str (prop ds "label") "Forecast" then
    restyle ds !! "borderDash" = Some (JArr [JNum 6; JNum 6]) ∧
    restyle ds !! "pointRadius" = Some (JNum 5) ∧
    restyle ds !! "pointBackgroundColor" = Some (JStr "red") ∧
    restyle ds !! "fill" = Some (JBool true) ∧
    restyle ds !! "backgroundColor" = Some (JStr "rgba(255,99,132,0.2)") ∧
    ∀ k, k ≠ "borderDash" → k ≠ "pointRadius" →
         k ≠ "pointBackgroundColor" → k ≠ "fill" →
         k ≠ "backgroundColor" → restyle ds !! k = ds !! k
  else restyle ds = ds.
Proof.
  unfold restyle. destruct (is_str (prop ds "label") "Forecast"); [|done].
  unfold forecast_style.
  split; [by do 4 rewrite lookup_insert_ne by done; rewrite lookup_insert_eq|].
  split; [by do 3 rewrite lookup_insert_ne by done; rewrite lookup_insert_eq|].
  split; [by do 2 rewrite lookup_insert_ne by done; rewrite lookup_insert_eq|].
  split; [by rewrite lookup_insert_ne by done; rewrite lookup_insert_eq|].
  split; [by rewrite lookup_insert_eq|].
  intros k ? ? ? ? ?. by do 5 rewrite lookup_insert_ne by done.
Qed.

(** C2 (amended): for kind "line" the restyling (dashes, larger points, red
    points, fill, fixed fill colour) is applied to exactly the series whose
    label is "Forecast", whether or not a "History" series is present; every
    other series, and every other field of a restyled series, is passed on
    unchanged, as are the labels. *)
Theorem forecast_series_restyled (cfg : ChartData) (isDarkMode : bool)
    (w : World) :
  ∃ out,
    renderChart (Some cfg) (JStr "line") isDarkMode w
      = (Normal (Line out (chartOptions isDarkMode (JStr "line"))), w) ∧
    labels out = labels cfg ∧
    length (datasets out) = length (datasets cfg) ∧
    ∀ i ds, datasets cfg !! i = Some ds →
      ∃ ds', datasets out !! i = Some ds' ∧
        if is_str (prop ds "label") "Forecast" then
          ds' !! "borderDash" = Some (JArr [JNum 6; JNum 6]) ∧
          ds' !! "pointRadius" = Some (JNum 5) ∧
          ds' !! "pointBackgroundColor" = Some (JStr "red") ∧
          ds' !! "fill" = Some (JBool true) ∧
          ds' !! "backgroundColor" = Some (JStr "rgba(255,99,132,0.2)") ∧
          ∀ k, k ≠ "borderDash" → k ≠ "pointRadius" →
               k ≠ "pointBackgroundColor" → k ≠ "fill" →
               k ≠ "backgroundColor" → ds' !! k = ds !! k
        else ds' = ds.
Proof.
  unfold renderChart. cbn [is_str String.eqb Ascii.eqb Bool.eqb].
  destruct (existsb reserved_label (datasets cfg)) eqn:Hany.
  - eexists. split; [reflexivity|]. cbn [labels datasets].
    split; [done|]. split; [by rewrite length_fmap|].
    intros i ds Hi. exists (restyle ds).
    split; [by rewrite list_lookup_fmap, Hi|]. apply restyle_spec.
  - exists cfg. split; [reflexivity|]. split; [done|]. split; [done|].
    intros i ds Hi. exists ds. split; [done|].
    pose proof (existsb_false_lookup _ _ _ _ Hany Hi) as Hres.
    unfold reserved_label in Hres. apply orb_false_elim in Hres as [_ Hf].
    by rewrite Hf.
Qed.

(** C2 as stated fails: a lone "Forecast" series, with no "History" series
    beside it, is restyled all the same. *)
Lemma forecast_restyled_without_history :
  ∃ cfg out options ds,
    run (safeChartConfig forecast_only (JStr "line")) counting_world
      = Normal (Some cfg) ∧
    has_reserved_pair cfg = false ∧
    run (renderChart (Some cfg) (JStr "line") false) counting_world
      = Normal (Line out options) ∧
    datasets out = [ds] ∧
    ds !! "borderDash" = Some (JArr [JNum 6; JNum 6]) ∧
    ds !! "pointRadius" = Some (JNum 5) ∧
    ds !! "fill" = Some (JBool true) ∧
    ds !! "backgroundColor" = Some (JStr "rgba(255,99,132,0.2)").
Proof.
  eexists _, _, _, _. split; [vm_compute; reflexivity|].
  split; [vm_compute; reflexivity|]. split; [vm_compute; reflexivity|].
  split; [reflexivity|]. repeat split; vm_compute; reflexivity.
Qed.

(** ** Inputs on which the clean-up raises an exception *)

(** C3 fails on the code: the input below is an object whose [datasets] is
    an array, and filtering leaves one series, so the clean-up should return
    a configuration; synthesising the labels calls [.map] on the string in
    the first series and the run ends in a TypeError instead, for every
    chart kind. *)
Theorem non_array_data_in_first_series_throws (chartType : JsVal) (w : World) :
  datasets_array (obj [("datasets", JArr broken_then_sales)])
    = Some broken_then_sales ∧
  length (List.filter valid_series broken_then_sales) = 1 ∧
  safeChartConfig (obj [("datasets", JArr broken_then_sales)]) chartType w
    = (Throw not_a_function, w).
Proof.
  split; [reflexivity|]. split; [reflexivity|].
  unfold obj.
  rewrite (safeChartConfig_run _ broken_then_sales); [reflexivity|reflexivity|].
  unfold broken_then_sales. by repeat constructor.
Qed.

(** C6 fails on the code: the input below contains a valid series (a
    non-empty array of numbers with a non-empty label), yet the clean-up
    yields no configuration at all: it ends in a TypeError because the
    first series carries an object as [data]. *)
Theorem valid_series_lost_to_exception (chartType : JsVal) (w : World) :
  existsb valid_series object_then_sales = true ∧
  safeChartConfig (obj [("datasets", JArr object_then_sales)]) chartType w
    = (Throw not_a_function, w).
Proof.
  split; [reflexivity|].
  unfold obj.
  rewrite (safeChartConfig_run _ object_then_sales); [reflexivity|reflexivity|].
  unfold object_then_sales. by repeat constructor.
Qed.

(** A [null] entry in [datasets] makes the filter itself throw. *)
Lemma null_series_throws (chartType : JsVal) (w : World) :
  ∃ e, safeChartConfig (obj [("labels", JArr []); ("datasets", JArr [JNull])])
                       chartType w = (Throw e, w).
Proof. eexists. reflexivity. Qed.

(** ** What holds whenever the clean-up returns a configuration *)

Lemma or_else_truthy a b : truthy b = true → truthy (or_else a b) = true.
Proof. unfold or_else. by destruct (truthy a) eqn:Ha. Qed.

(** The series list is not empty and every label is truthy: the raw label
    itself when that is truthy, "Series" otherwise; so a label that was a
    string, blank or missing in the input is a non-empty string. *)
Lemma cleaned_series_labelled chartConfig chartType w cfg w' :
  safeChartConfig chartConfig chartType w = (Normal (Some cfg), w') →
  datasets cfg ≠ [] ∧
  ∃ raw, datasets_array chartConfig = Some raw ∧
    Forall2 (λ (v : JsVal) (out : gmap string JsVal),
               ∃ ds, v = JObj ds ∧
                 prop out "label" = or_else (prop ds "label") (JStr "Series") ∧
                 truthy (prop out "label") = true)
            (List.filter valid_series raw) (datasets cfg).
Proof.
  intros H. split; [by apply safeChartConfig_well_formed in H as [? _]|].
  apply safeChartConfig_some_inv
    in H as (o & raw & ls & -> & Hds & _ & _ & _ & -> & _).
  exists raw. split; [by cbn; rewrite (prop_lookup _ _ _ Hds)|].
  cbn [datasets]. unfold survivors.
  eapply Forall2_impl; [apply series_from_kept, filter_valid_Forall|].
  intros v out (ds & q & -> & _ & ->). exists ds. split; [done|].
  rewrite series_after_label. split; [done|]. by apply or_else_truthy.
Qed.

(** ** Sample runs *)

Example quarterly_bar_label :
  (λ ds, prop ds "label") <$> datasets (cleaned quarterly (JStr "bar") counting_world)
  = [JStr "Series"].
Proof. vm_compute. reflexivity. Qed.

Example quarterly_bar_colours :
  (λ ds, (prop ds "backgroundColor", prop ds "borderColor"))
    <$> datasets (cleaned quarterly (JStr "bar") counting_world)
  = [(JArr [JStr "rgba(7, 8, 9, 0.6)"; JStr "rgba(10, 11, 12, 0.6)"],
      JStr "rgba(13, 14, 15, 1)")].
Proof. vm_compute. reflexivity. Qed.

Example quarterly_line_colours :
  (λ ds, (prop ds "backgroundColor", prop ds "borderColor"))
    <$> datasets (cleaned quarterly (JStr "line") counting_world)
  = [(JStr "rgba(7, 8, 9, 0.2)", JStr "rgba(10, 11, 12, 1)")].
Proof. vm_compute. reflexivity. Qed.

Example empty_datasets_fall_back :
  ∃ options,
    run (ChartComponent (JStr "pie") (obj [("datasets", JArr [])]) true)
        counting_world = Normal (Line defaultData options).
Proof. eexists. vm_compute. reflexivity. Qed.

Example short_series_table :
  run (ChartComponent (JStr "table")
         (obj [("labels", JArr [JStr "a"; JStr "b"; JStr "c"]);
               ("datasets", JArr [obj [("label", JStr "s");
                                       ("data", JArr [JNum 1; JNull])]])])
         false) counting_world
  = Normal (Table [JStr "Category"; JStr "s"]
                  [MkRow (JStr "a") [JNum 1];
                   MkRow (JStr "b") [JStr "N/A"];
                   MkRow (JStr "c") [JStr "N/A"]]).
Proof. vm_compute. reflexivity. Qed.

(** ** The theorems at concrete inputs *)

(** The label theorem of C1 on two unlabelled series of lengths 1 and 2. *)
Lemma labels_resolution_witness :
  safeChartConfig unlabelled (JStr "bar") counting_world
    = (Normal (Some (cleaned unlabelled (JStr "bar") counting_world)),
       world_after unlabelled (JStr "bar") counting_world) ∧
  ∃ first, head uneven_series = Some first ∧
    labels (cleaned unlabelled (JStr "bar") counting_world) !! 0
      = Some (JStr "Label 1").
Proof.
  assert (H : safeChartConfig unlabelled (JStr "bar") counting_world
              = (Normal (Some (cleaned unlabelled (JStr "bar") counting_world)),
                 world_after unlabelled (JStr "bar") counting_world))
    by (vm_compute; reflexivity).
  split; [exact H|].
  destruct (labels_resolution _ _ _ _ _ H)
    as (o & raw & first & Ho & Hraw & Hfirst & _ & _).
  injection Ho as <-. exists (obj [("data", JArr [JNum 1])]).
  split; reflexivity.
Defined.

(** The cell theorem of C5 on three labels and a series of two entries. *)
Lemma table_cells_or_sentinel_witness :
  safeChartConfig short_series (JStr "table") counting_world
    = (Normal (Some (cleaned short_series (JStr "table") counting_world)),
       world_after short_series (JStr "table") counting_world) ∧
  ∃ head body,
    renderChart (Some (cleaned short_series (JStr "table") counting_world))
                (JStr "table") false counting_world
      = (Normal (Table head body), counting_world) ∧
    length body = 3.
Proof.
  assert (H : safeChartConfig short_series (JStr "table") counting_world
              = (Normal (Some (cleaned short_series (JStr "table") counting_world)),
                 world_after short_series (JStr "table") counting_world))
    by (vm_compute; reflexivity).
  split; [exact H|].
  destruct (table_cells_or_sentinel _ _ _ _ counting_world _ false H)
    as (head & body & Hrun & Hlen & _).
  exists head, body. split; [exact Hrun|exact Hlen].
Defined.

(** The row theorem of C9 on the same input: there is no fourth row. *)
Lemma table_rows_follow_labels_witness :
  safeChartConfig short_series (JStr "table") counting_world
    = (Normal (Some (cleaned short_series (JStr "table") counting_world)),
       world_after short_series (JStr "table") counting_world) ∧
  ∃ head body,
    renderChart (Some (cleaned short_series (JStr "table") counting_world))
                (JStr "table") true counting_world
      = (Normal (Table head body), counting_world) ∧
    body !! 3 = None.
Proof.
  assert (H : safeChartConfig short_series (JStr "table") counting_world
              = (Normal (Some (cleaned short_series (JStr "table") counting_world)),
                 world_after short_series (JStr "table") counting_world))
    by (vm_compute; reflexivity).
  split; [exact H|].
  destruct (table_rows_follow_labels _ _ _ _ counting_world _ true H)
    as (head & body & Hrun & _ & _ & Hbeyond & _).
  exists head, body. split; [exact Hrun|]. apply Hbeyond. vm_compute. lia.
Defined.

(** The frame theorem of C10 on the quarterly bar chart. *)
Lemma surviving_series_carried_through_witness :
  safeChartConfig quarterly (JStr "bar") counting_world
    = (Normal (Some (cleaned quarterly (JStr "bar") counting_world)),
       world_after quarterly (JStr "bar") counting_world) ∧
  ∃ raw,
    datasets_array quarterly = Some raw ∧
    length (List.filter valid_series raw)
      = length (datasets (cleaned quarterly (JStr "bar") counting_world)).
Proof.
  assert (H : safeChartConfig quarterly (JStr "bar") counting_world
              = (Normal (Some (cleaned quarterly (JStr "bar") counting_world)),
                 world_after quarterly (JStr "bar") counting_world))
    by (vm_compute; reflexivity).
  split; [exact H|].
  destruct (surviving_series_carried_through _ _ _ _ _ H)
    as (o & raw & Ho & Hraw & Hall).
  exists raw. split.
  - injection Ho as <-. cbn. by rewrite (prop_lookup _ _ _ Hraw).
  - exact (Forall2_length _ _ _ Hall).
Defined.

(** The theorem of C8 on the quarterly line chart, the second run under a
    different random source. *)
Lemma structure_is_reproducible_witness :
  safeChartConfig quarterly (JStr "line") counting_world
    = (Normal (Some (cleaned quarterly (JStr "line") counting_world)),
       world_after quarterly (JStr "line") counting_world) ∧
  ∃ cfg2 w2',
    safeChartConfig quarterly (JStr "line") (MkWorld (λ n, 200 - N.of_nat n)%N 5 [])
      = (Normal (Some cfg2), w2') ∧
    labels cfg2 = [JStr "Q1"; JStr "Q2"].
Proof.
  assert (H : safeChartConfig quarterly (JStr "line") counting_world
              = (Normal (Some (cleaned quarterly (JStr "line") counting_world)),
                 world_after quarterly (JStr "line") counting_world))
    by (vm_compute; reflexivity).
  split; [exact H|].
  destruct (structure_is_reproducible _ _ _ _
              (MkWorld (λ n, 200 - N.of_nat n)%N 5 []) _ H)
    as (cfg2 & w2' & Hrun & Hlabels & _).
  exists cfg2, w2'. split; [exact Hrun|exact Hlabels].
Defined.

(** The colour theorem of C7 on the quarterly line chart: the one series,
    which brings no colours, gets a background ending in ", 0.2)" and a
    border ending in ", 1)". *)
Lemma colours_resolved_witness :
  safeChartConfig quarterly (JStr "line") counting_world
    = (Normal (Some (cleaned quarterly (JStr "line") counting_world)),
       world_after quarterly (JStr "line") counting_world) ∧
  ∃ (out : gmap string JsVal) (r g b r' g' b' : N),
    datasets (cleaned quarterly (JStr "line") counting_world) !! 0 = Some out ∧
    prop out "backgroundColor"
      = JStr ("rgba(" +:+ pretty r +:+ ", " +:+ pretty g +:+ ", "
                +:+ pretty b +:+ ", 0.2)") ∧
    prop out "borderColor"
      = JStr ("rgba(" +:+ pretty r' +:+ ", " +:+ pretty g' +:+ ", "
                +:+ pretty b' +:+ ", 1)").
Proof.
  assert (H : safeChartConfig quarterly (JStr "line") counting_world
              = (Normal (Some (cleaned quarterly (JStr "line") counting_world)),
                 world_after quarterly (JStr "line") counting_world))
    by (vm_compute; reflexivity).
  split; [exact H|].
  destruct (colours_resolved _ _ _ _ _ H) as (o & raw & Ho & Hraw & Hall).
  injection Ho as <-.
  assert (Hr : raw = [obj [("data", JArr [JNum 100; JNum 200])]]).
  { rewrite lookup_insert_ne, lookup_insert_eq in Hraw by done.
    by injection Hraw as <-. }
  subst raw.
  destruct (datasets (cleaned quarterly (JStr "line") counting_world) !! 0)
    as [out|] eqn:Hout; [|by vm_compute in Hout].
  assert (Hin : List.filter valid_series
                  [obj [("data", JArr [JNum 100; JNum 200])]] !! 0
                = Some (obj [("data", JArr [JNum 100; JNum 200])]))
    by reflexivity.
  destruct (Forall2_lookup_lr _ _ _ _ _ _ Hall Hin Hout)
    as (ds & p & q & Hds & _ & _ & Hbg & Hbd).
  injection Hds as <-.
  exists out, (entropy counting_world p), (entropy counting_world (p + 1)),
    (entropy counting_world (p + 2)), (entropy counting_world q),
    (entropy counting_world (q + 1)), (entropy counting_world (q + 2)).
  split; [reflexivity|]. split; [exact Hbg|exact Hbd].
Defined.

(** * Further properties of [ChartComponent.js] *)

(** ** When the clean-up throws *)

Lemma nullish_Forall_or_Exists (raw : list JsVal) :
  Forall (λ v, nullish v = false) raw ∨ Exists (λ v, nullish v = true) raw.
Proof.
  induction raw as [|v raw [IH|IH]].
  - left. constructor.
  - destruct (nullish v) eqn:Hv.
    + right. by constructor.
    + left. by constructor.
  - right. by constructor 2.
Qed.

Lemma nullish_Forall_not_Exists (raw : list JsVal) :
  Forall (λ v, nullish v = false) raw →
  ¬ Exists (λ v, nullish v = true) raw.
Proof.
  intros Hall Hex. apply Exists_exists in Hex as (v & Hin & Hv).
  rewrite Forall_forall in Hall. specialize (Hall v Hin). congruence.
Qed.

Lemma filterM_has_data_throw raw w :
  Exists (λ v, nullish v = true) raw →
  ∃ e, filterM has_data raw w = (Throw e, w).
Proof.
  induction 1 as [v raw Hv|v raw _ [e IH]].
  - destruct v; try done; eexists; reflexivity.
  - cbn [filterM]. destruct (nullish v) eqn:Hv.
    + destruct v; try done; eexists; reflexivity.
    + js_step. rewrite has_data_run by done. js_step. rewrite IH. eauto.
Qed.

Lemma safeChartConfig_labels_throw o raw chartType w :
  o !! "datasets" = Some (JArr raw) →
  resolved_labels o raw = None →
  safeChartConfig (JObj o) chartType w = (Throw not_a_function, w).
Proof.
  intros Hds Hls. unfold safeChartConfig, resolved_labels in *.
  cbn [truthy negb get]. js_step. rewrite (prop_lookup _ _ _ Hds). js_step.
  destruct (prop o "labels") as [| | | | |ls0|]; try done;
    rewrite fallback_labels_run, Hls; reflexivity.
Qed.

Lemma safeChartConfig_null_throw o raw chartType w :
  o !! "datasets" = Some (JArr raw) →
  Exists (λ v, nullish v = true) raw →
  ∃ e, safeChartConfig (JObj o) chartType w = (Throw e, w).
Proof.
  intros Hds Hex.
  destruct (resolved_labels o raw) as [ls|] eqn:Hls;
    [|rewrite (safeChartConfig_labels_throw o raw) by done; eauto].
  destruct (filterM_has_data_throw raw w Hex) as [e He]. exists e.
  unfold safeChartConfig, resolved_labels in *.
  cbn [truthy negb get]. js_step. rewrite (prop_lookup _ _ _ Hds). js_step.
  destruct (prop o "labels") as [| | | | |ls0|];
    rewrite ?fallback_labels_run, ?Hls; cbn [mret JS_ret]; js_step;
    by rewrite He.
Qed.

Lemma resolved_labels_none o raw :
  resolved_labels o raw = None ↔
  is_array (prop o "labels") = false ∧
  ∃ d, head raw = Some (JObj d) ∧
    nullish (prop d "data") = false ∧ is_array (prop d "data") = false.
Proof.
  unfold resolved_labels, first_series_labels. split.
  - intros H. destruct (prop o "labels"); try done;
      (split; [done|]);
      (destruct raw as [|[| | | | | |d] raw]; try done);
      exists d; (split; [done|]); by destruct (prop d "data").
  - intros (Hlab & d & Hhead & Hnull & Harr).
    destruct raw as [|v raw]; [done|]. injection Hhead as ->.
    destruct (prop o "labels"); try done; by destruct (prop d "data").
Qed.

(** The clean-up ends in an exception exactly when [datasets] is an array
    and either it holds a [null]/[undefined] entry, or [labels] is not an
    array while the first series is an object whose [data] is neither an
    array nor [null]/[undefined].  An exception leaves no trace: no random
    number has been drawn and nothing has been logged. *)
Theorem cleanup_throws_exactly (chartConfig chartType : JsVal) (w : World) :
  (∀ e w', safeChartConfig chartConfig chartType w = (Throw e, w') → w' = w) ∧
  ((∃ e, safeChartConfig chartConfig chartType w = (Throw e, w)) ↔
   ∃ o raw,
     chartConfig = JObj o ∧ o !! "datasets" = Some (JArr raw) ∧
     (Exists (λ v, nullish v = true) raw ∨
      (is_array (prop o "labels") = false ∧
       ∃ d, head raw = Some (JObj d) ∧
         nullish (prop d "data") = false ∧
         is_array (prop d "data") = false))).
Proof.
  destruct (datasets_array chartConfig) as [raw|] eqn:Harr.
  - apply datasets_array_some in Harr as (o & -> & Hds).
    destruct (resolved_labels o raw) as [ls|] eqn:Hls.
    + destruct (nullish_Forall_or_Exists raw) as [Hall|Hex].
      * pose proof (safeChartConfig_run o raw chartType w Hds Hall) as Hrun.
        rewrite Hls in Hrun. split.
        -- intros e w' H. rewrite Hrun in H. by destruct (survivors raw).
        -- split.
           ++ intros [e H]. rewrite Hrun in H. by destruct (survivors raw).
           ++ intros (o' & raw' & [= <-] & Hds' & Hcase).
              rewrite Hds in Hds'. injection Hds' as <-.
              destruct Hcase as [Hex|Hnone].
              ** by apply nullish_Forall_not_Exists in Hall.
              ** apply resolved_labels_none in Hnone. congruence.
      * destruct (safeChartConfig_null_throw o raw chartType w Hds Hex)
          as [e He].
        split; [intros e' w' H; rewrite He in H; by injection H|].
        split; [|by eauto]. intros _. exists o, raw. by eauto.
    + rewrite (safeChartConfig_labels_throw o raw) by done.
      split; [by intros e w' [= _ <-]|]. split; [|by eauto].
      intros _. exists o, raw. split; [done|]. split; [done|].
      right. by apply resolved_labels_none.
  - rewrite safeChartConfig_rejects by done. split; [done|]. split.
    + by intros [e H].
    + intros (o & raw & -> & Hds & _). cbn in Harr.
      by rewrite (prop_lookup _ _ _ Hds) in Harr.
Qed.

(** ** Warnings and random draws *)

(** A run that completes logs a warning exactly when it returns nothing:
    [InvalidChartConfig] when there is no [datasets] array, and
    [NoValidDatasets] when the array has no valid series; a rejected input
    draws no random number, and a returned configuration logs nothing. *)
Theorem cleanup_warns_iff_nothing (chartConfig chartType : JsVal)
    (w w' : World) (r : option ChartData) :
  safeChartConfig chartConfig chartType w = (Normal r, w') →
  match r with
  | None =>
      drawn w' = drawn w ∧
      console w' = (console w ++
        [match datasets_array chartConfig with
         | None => InvalidChartConfig chartConfig
         | Some _ => NoValidDatasets
         end])%list
  | Some _ => console w' = console w ∧ drawn w ≤ drawn w'
  end.
Proof.
  intros H. destruct r as [cfg|].
  - apply safeChartConfig_some_inv
      in H as (o & raw & ls & -> & _ & _ & _ & _ & _ & ->).
    cbn. split; [done|lia].
  - destruct (datasets_array chartConfig) as [raw|] eqn:Harr.
    + apply datasets_array_some in Harr as (o & -> & Hds).
      pose proof (safeChartConfig_normal_no_null _ _ _ _ _ _ Hds H) as Hall.
      rewrite (safeChartConfig_run o raw) in H by done.
      destruct (resolved_labels o raw); [|done].
      destruct (survivors raw); [|done]. by injection H as <-.
    + rewrite safeChartConfig_rejects in H by done. by injection H as <-.
Qed.

Lemma series_after_styled chartType labels e p o :
  truthy (prop o "backgroundColor") = true →
  truthy (prop o "borderColor") = true →
  series_after chartType labels e p o
  = <["borderColor" := prop o "borderColor"]>
      (<["backgroundColor" := prop o "backgroundColor"]>
         (<["label" := or_else (prop o "label") (JStr "Series")]> o)) ∧
  series_draws chartType labels o = 0.
Proof.
  intros Hbg Hbd.
  unfold series_after, series_draws, background_for, border_for, background_draws.
  by rewrite Hbg, Hbd.
Qed.

Lemma series_from_styled chartType labels e1 p1 e2 p2 os :
  Forall (λ o, truthy (prop o "backgroundColor") = true ∧
               truthy (prop o "borderColor") = true) os →
  series_from chartType labels e1 p1 os = series_from chartType labels e2 p2 os ∧
  total_draws chartType labels os = 0.
Proof.
  intros Hos. revert p1 p2.
  induction Hos as [|o os [Hbg Hbd] _ IH]; intros p1 p2; [done|].
  cbn [series_from total_draws].
  destruct (series_after_styled chartType labels e1 p1 o Hbg Hbd) as [-> ->].
  destruct (series_after_styled chartType labels e2 p2 o Hbg Hbd) as [-> _].
  destruct (IH (p1 + 0) (p2 + 0)) as [-> ->]. done.
Qed.

(** When every valid series of the input brings its own background and
    border colour, the clean-up draws no random number and returns the
    same configuration under every random source. *)
Theorem explicit_colours_need_no_randomness (chartConfig chartType : JsVal)
    (w w' : World) (cfg : ChartData) (raw : list JsVal) :
  safeChartConfig chartConfig chartType w = (Normal (Some cfg), w') →
  datasets_array chartConfig = Some raw →
  Forall (λ v, valid_series v = true →
               truthy (prop (as_object v) "backgroundColor") = true ∧
               truthy (prop (as_object v) "borderColor") = true) raw →
  w' = w ∧
  ∀ w2, safeChartConfig chartConfig chartType w2 = (Normal (Some cfg), w2).
Proof.
  intros H Harr Hcol.
  apply safeChartConfig_some_inv
    in H as (o & raw' & ls & -> & Hds & Hall & Hls & Hne & -> & ->).
  cbn in Harr. rewrite (prop_lookup _ _ _ Hds) in Harr. injection Harr as ->.
  assert (Hsurv : Forall (λ o, truthy (prop o "backgroundColor") = true ∧
                               truthy (prop o "borderColor") = true)
                         (survivors raw)).
  { unfold survivors. apply Forall_fmap, Forall_forall.
    intros v Hv. apply list_elem_of_In, List.filter_In in Hv as [Hin Hvalid].
    rewrite Forall_forall in Hcol. apply Hcol; [by apply list_elem_of_In|done]. }
  split.
  - destruct (series_from_styled chartType ls (entropy w) (drawn w)
                (entropy w) (drawn w) _ Hsurv) as [_ ->].
    apply advance_0.
  - intros w2. rewrite (safeChartConfig_run o raw) by done. rewrite Hls.
    destruct (series_from_styled chartType ls (entropy w2) (drawn w2)
                (entropy w) (drawn w) _ Hsurv) as [-> ->].
    rewrite advance_0. by destruct (survivors raw).
Qed.

(** ** Cleaning a cleaned configuration again *)

Lemma rgba_truthy r g b alpha : truthy (JStr (rgba r g b alpha)) = true.
Proof. reflexivity. Qed.

Lemma prop_truthy_lookup (o : gmap string JsVal) k :
  truthy (prop o k) = true → o !! k = Some (prop o k).
Proof. unfold prop. by destruct (o !! k). Qed.

Lemma series_after_fully_styled chartType labels e p o :
  fully_styled (series_after chartType labels e p o).
Proof.
  unfold fully_styled.
  rewrite series_after_label, series_after_background, series_after_border.
  split; [by apply or_else_truthy|]. split.
  - unfold background_for.
    destruct (truthy (prop o "backgroundColor")) eqn:Hbg; [done|].
    destruct (is_str chartType "line"); [apply rgba_truthy|done].
  - unfold border_for.
    destruct (truthy (prop o "borderColor")) eqn:Hbd; [done|apply rgba_truthy].
Qed.

Lemma series_after_id chartType labels e p o :
  fully_styled o →
  series_after chartType labels e p o = o ∧ series_draws chartType labels o = 0.
Proof.
  intros (Hl & Hbg & Hbd).
  destruct (series_after_styled chartType labels e p o Hbg Hbd) as [-> ->].
  split; [|done]. unfold or_else. rewrite Hl.
  rewrite (insert_id o "label") by by apply prop_truthy_lookup.
  rewrite (insert_id o "backgroundColor") by by apply prop_truthy_lookup.
  by rewrite (insert_id o "borderColor") by by apply prop_truthy_lookup.
Qed.

Lemma series_from_id chartType labels e p os :
  Forall fully_styled os →
  series_from chartType labels e p os = os ∧ total_draws chartType labels os = 0.
Proof.
  intros Hos. revert p. induction Hos as [|o os Ho _ IH]; intros p; [done|].
  cbn [series_from total_draws].
  destruct (series_after_id chartType labels e p o Ho) as [-> ->].
  by destruct (IH (p + 0)) as [-> ->].
Qed.

Lemma series_from_fully_styled chartType labels e p os :
  Forall fully_styled (series_from chartType labels e p os).
Proof.
  revert p. induction os as [|o os IH]; intros p; cbn; constructor;
    [apply series_after_fully_styled|apply IH].
Qed.

Lemma survivors_of_objects dss :
  Forall has_data_array dss → survivors (JObj <$> dss) = dss.
Proof.
  unfold survivors. induction 1 as [|ds dss (xs & Hxs & Hlen) _ IH]; [done|].
  cbn [fmap list_fmap List.filter valid_series].
  rewrite (prop_lookup _ _ _ Hxs), bool_decide_eq_true_2 by done.
  cbn [fmap list_fmap as_object]. f_equal. exact IH.
Qed.

(** A configuration the clean-up has returned passes through it unchanged:
    handed to the component again, as the object [{labels, datasets}] and
    for whatever chart kind, it comes back as it is, with no random number
    drawn and nothing logged. *)
Theorem cleanup_is_idempotent (chartConfig chartType : JsVal)
    (w w' : World) (cfg : ChartData) (chartType2 : JsVal) (w2 : World) :
  safeChartConfig chartConfig chartType w = (Normal (Some cfg), w') →
  safeChartConfig (to_config cfg) chartType2 w2 = (Normal (Some cfg), w2).
Proof.
  intros H. pose proof (safeChartConfig_well_formed _ _ _ _ _ H) as [Hne Hdata].
  apply safeChartConfig_some_inv
    in H as (o & raw & ls & -> & _ & _ & _ & _ & -> & _).
  cbn [datasets labels] in *.
  set (dss := series_from chartType ls (entropy w) (drawn w) (survivors raw)) in *.
  unfold to_config. cbn [datasets labels].
  rewrite (safeChartConfig_run _ (JObj <$> dss));
    [|by rewrite lookup_insert_eq
     |apply Forall_fmap, Forall_forall; by intros].
  unfold resolved_labels.
  rewrite (prop_lookup _ "labels" (JArr ls))
    by by rewrite lookup_insert_ne, lookup_singleton_eq.
  rewrite survivors_of_objects by done.
  destruct (series_from_id chartType2 ls (entropy w2) (drawn w2) dss) as [-> ->];
    [apply series_from_fully_styled|].
  rewrite advance_0. by destruct dss.
Qed.

(** ** Rendering after the clean-up *)

Lemma renderChart_some_normal cfg chartType isDarkMode w :
  well_formed cfg →
  ∃ el, renderChart (Some cfg) chartType isDarkMode w = (Normal el, w) ∧
        ∀ text, el ≠ Div text.
Proof.
  intros Hwf. unfold renderChart.
  destruct (is_str chartType "bar"); [by eexists|].
  destruct (is_str chartType "line").
  { destruct (existsb reserved_label (datasets cfg)); by eexists. }
  destruct (is_str chartType "pie"); [by eexists|].
  destruct (is_str chartType "table"); [|by eexists].
  rewrite renderTable_run by done. by eexists.
Qed.

(** Once the clean-up has completed, rendering completes too, for every
    chart kind and theme: the component yields a bar, line or pie chart or a
    table, never the "No table data available" placeholder, and rendering
    draws no random number and logs nothing. *)
Theorem rendering_never_throws (chartConfig chartType : JsVal)
    (isDarkMode : bool) (w w' : World) (r : option ChartData) :
  safeChartConfig chartConfig chartType w = (Normal r, w') →
  ∃ el,
    ChartComponent chartType chartConfig isDarkMode w = (Normal el, w') ∧
    renderChart r chartType isDarkMode w' = (Normal el, w') ∧
    ∀ text, el ≠ Div text.
Proof.
  intros H. unfold ChartComponent. rewrite bind_run, H.
  destruct r as [cfg|].
  - apply safeChartConfig_well_formed in H.
    destruct (renderChart_some_normal cfg chartType isDarkMode w' H)
      as (el & Hel & Hdiv). eauto.
  - by eexists.
Qed.


(** Whatever chart is rendered, fallback included, its options carry axis
    scales exactly when the requested kind is not "pie"; when they do, the
    y axis starts at zero and the x axis does not say. *)
Theorem scales_follow_kind (safe : option ChartData) (chartType : JsVal)
    (isDarkMode : bool) (w w' : World) (el : Element)
    (d : ChartData) (o : ChartOptions) :
  renderChart safe chartType isDarkMode w = (Normal el, w') →
  chart_of el = Some (d, o) →
  (scales o = None ↔ is_str chartType "pie" = true) ∧
  ∀ sc, scales o = Some sc →
    beginAtZero (y_axis sc) = Some true ∧ beginAtZero (x_axis sc) = None.
Proof.
  intros H Hel.
  assert (Ho : scales o = scales (chartOptions isDarkMode chartType)).
  { unfold renderChart in H. destruct safe as [cfg|].
    - destruct (is_str chartType "bar");
        [injection H as <- <-; by injection Hel as <- <-|].
      destruct (is_str chartType "line").
      { destruct (existsb reserved_label (datasets cfg));
          injection H as <- <-; by injection Hel as <- <-. }
      destruct (is_str chartType "pie");
        [injection H as <- <-; by injection Hel as <- <-|].
      destruct (is_str chartType "table");
        [|injection H as <- <-; by injection Hel as <- <-].
      unfold renderTable in H.
      apply bind_normal_inv in H as (body & w1 & _ & H).
      injection H as <- <-. discriminate.
    - injection H as <- <-. by injection Hel as <- <-. }
  rewrite Ho. cbn [chartOptions scales].
  destruct (is_str chartType "pie"); cbn; split; try done.
  by intros sc [= <-].
Qed.

(** The header row of the table names the series: it is "Category"
    followed by the label of each series in order, none of them blank. *)
Theorem table_header_names_series (chartConfig chartType : JsVal)
    (w w' w0 : World) (cfg : ChartData) (isDarkMode : bool) :
  safeChartConfig chartConfig chartType w = (Normal (Some cfg), w') →
  ∃ body,
    renderChart (Some cfg) (JStr "table") isDarkMode w0
      = (Normal (Table (JStr "Category"
                          :: ((λ ds, prop ds "label") <$> datasets cfg)) body),
         w0) ∧
    Forall (λ ds, truthy (prop ds "label") = true) (datasets cfg).
Proof.
  intros H. pose proof (safeChartConfig_well_formed _ _ _ _ _ H) as Hwf.
  eexists. rewrite renderChart_table, renderTable_run by done.
  split; [reflexivity|].
  apply safeChartConfig_some_inv
    in H as (o & raw & ls & -> & _ & _ & _ & _ & -> & _).
  cbn [datasets]. eapply Forall_impl; [apply series_from_fully_styled|].
  by intros ds [Hl _].
Qed.

(** * Properties of [App.js] *)

(** ** The colouring pass *)

Lemma get_run v k w : nullish v = false → get v k w = (Normal (own v k), w).
Proof. by destruct v. Qed.

Lemma get_throw v k w : nullish v = true → ∃ e, get v k w = (Throw e, w).
Proof. destruct v; try done; eexists; reflexivity. Qed.

Lemma hsl_palette_run hues ls w :
  mapM (λ _ : JsVal, random_hsl hues) ls w =
  (Normal (hsl_palette hues (drawn w) ls), advance (length ls) w).
Proof.
  revert w. induction ls as [|l ls IH]; intros w.
  - cbn. by rewrite advance_0.
  - cbn [mapM]. rewrite bind_run. cbn [random_hsl]. rewrite bind_run, IH.
    unfold mret, JS_ret, hsl_palette, advance.
    cbn [imap length entropy drawn console]. f_equal.
    + f_equal. f_equal; [by rewrite Nat.add_0_r|].
      apply imap_ext. intros j x _. cbn. do 3 f_equal. lia.
    + f_equal. lia.
Qed.

Lemma hsl_palette_length hues p ls : length (hsl_palette hues p ls) = length ls.
Proof. unfold hsl_palette. by rewrite length_imap. Qed.

Lemma with_background_run hues c ds w :
  with_background hues c ds w =
  if nullish ds then
    (Throw (TypeError ("Cannot read properties of null or undefined: "
                       +:+ "backgroundColor")), w)
  else if truthy (own ds "backgroundColor") then
    (Normal (coloured ds (own ds "backgroundColor")), w)
  else
    match prop c "labels" with
    | JArr ls =>
        (Normal (coloured ds (JArr (hsl_palette hues (drawn w) ls))),
         advance (length ls) w)
    | _ => (Throw labels_not_mappable, w)
    end.
Proof.
  unfold with_background. destruct (nullish ds) eqn:Hn.
  - by destruct ds.
  - js_step. rewrite get_run by done. js_step.
    destruct (truthy (own ds "backgroundColor")); [by js_step|].
    destruct (prop c "labels") as [| | | | |ls|]; try reflexivity.
    rewrite fmap_run, hsl_palette_run. reflexivity.
Qed.

Lemma with_background_blocked hues c ds w :
  blocks c ds = true → ∃ e, with_background hues c ds w = (Throw e, w).
Proof.
  rewrite with_background_run. unfold blocks.
  destruct (nullish ds); [by eauto|]. cbn [orb].
  destruct (truthy (own ds "backgroundColor")); [done|]. cbn [negb andb].
  destruct (prop c "labels"); try done; by eauto.
Qed.

Lemma with_background_passes hues c ds w :
  blocks c ds = false →
  ∃ bg n,
    with_background hues c ds w = (Normal (coloured ds bg), advance n w) ∧
    truthy bg = true ∧
    (truthy (own ds "backgroundColor") = true →
     bg = own ds "backgroundColor" ∧ n = 0) ∧
    (truthy (own ds "backgroundColor") = false →
     ∃ ls, prop c "labels" = JArr ls ∧ n = length ls ∧
           bg = JArr (hsl_palette hues (drawn w) ls)).
Proof.
  rewrite with_background_run. unfold blocks.
  destruct (nullish ds); [done|]. cbn [orb].
  destruct (truthy (own ds "backgroundColor")) eqn:Hbg.
  - intros _. exists (own ds "backgroundColor"), 0. rewrite advance_0.
    split; [done|]. split; [done|]. split; [done|]. done.
  - cbn [negb andb].
    destruct (prop c "labels") as [| | | | |ls|]; try done. intros _.
    exists (JArr (hsl_palette hues (drawn w) ls)), (length ls).
    split; [done|]. split; [done|]. split; [done|]. eauto.
Qed.

Lemma backgrounds_throw hues c l w :
  existsb (blocks c) l = true →
  ∃ e w', mapM (with_background hues c) l w = (Throw e, w').
Proof.
  revert w. induction l as [|ds l IH]; intros w; [done|].
  cbn [existsb mapM]. destruct (blocks c ds) eqn:Hb.
  - intros _. destruct (with_background_blocked hues c ds w Hb) as [e He].
    rewrite bind_run, He. eauto.
  - cbn [orb]. intros Hl.
    destruct (with_background_passes hues c ds w Hb) as (bg & n & Hrun & _).
    rewrite bind_run, Hrun. destruct (IH (advance n w) Hl) as (e & w' & He).
    rewrite bind_run, He. eauto.
Qed.

Lemma backgrounds_pass hues c l w :
  existsb (blocks c) l = false →
  ∃ l' n,
    mapM (with_background hues c) l w = (Normal l', advance n w) ∧
    Forall2 (recoloured hues c) l l'.
Proof.
  revert w. induction l as [|ds l IH]; intros w.
  - intros _. exists [], 0. rewrite advance_0. split; [done|constructor].
  - cbn [existsb mapM]. intros [Hb Hl]%orb_false_elim.
    destruct (with_background_passes hues c ds w Hb)
      as (bg & n & Hrun & Hbg & Hgiven & Hmade).
    destruct (IH (advance n w) Hl) as (l' & m & Hrest & Hall).
    exists (coloured ds bg :: l'), (n + m).
    rewrite bind_run, Hrun, bind_run, Hrest, advance_advance.
    split; [done|]. constructor; [|done].
    split; [unfold blocks in Hb; by destruct (nullish ds)|].
    exists bg. split; [done|]. split; [done|].
    split; [by intros H; apply Hgiven|].
    intros H. destruct (Hmade H) as (ls & Hls & _ & ->). eauto.
Qed.

Lemma blocks_Forall2 hues c l l' :
  Forall2 (recoloured hues c) l l' → existsb (blocks c) l = false.
Proof.
  induction 1 as [|ds out l l' (Hn & bg & _ & _ & _ & Hmade) _ IH]; [done|].
  cbn [existsb]. rewrite IH, orb_false_r. unfold blocks. rewrite Hn. cbn [orb].
  destruct (truthy (own ds "backgroundColor")) eqn:Hbg; [done|].
  destruct (Hmade eq_refl) as (ls & p & -> & _). done.
Qed.


Lemma greater_than_zero_world cz v w :
  snd (greater_than_zero cz v w) = w.
Proof. by destruct v. Qed.

(** The outcome of [colorize] on an object whose [chart_config] is an
    object, by the shape of [datasets]. *)
Lemma colorize_object hues cz d c w :
  prop d "chart_config" = JObj c →
  colorize hues cz (JObj d) w =
  match prop c "datasets" with
  | JArr [] => (Normal (JObj d), w)
  | JArr l =>
      match mapM (with_background hues c) l w with
      | (Normal l', w') => (Normal (with_datasets d c l'), w')
      | (Throw e, w') => (Throw e, w')
      end
  | JStr s =>
      if negb (String.eqb s "") then (Throw datasets_not_mappable, w)
      else (Normal (JObj d), w)
  | JObj ds =>
      match greater_than_zero cz (prop ds "length") w with
      | (Normal true, w') => (Throw datasets_not_mappable, w')
      | (Normal false, w') => (Normal (JObj d), w')
      | (Throw e, w') => (Throw e, w')
      end
  | _ => (Normal (JObj d), w)
  end.
Proof.
  intros Hc. unfold colorize. cbn [get]. js_step. rewrite Hc.
  destruct (prop c "datasets") as [| | | |s|l|ds]; try reflexivity.
  - by destruct (negb (String.eqb s "")).
  - destruct l as [|x l]; [reflexivity|].
    rewrite bool_decide_eq_true_2 by (cbn; lia). rewrite bind_run.
    by destruct (mapM (with_background hues c) (x :: l) w) as [[l'|e] w'].
  - rewrite bind_run.
    by destruct (greater_than_zero cz (prop ds "length") w) as [[[]|e] w'].
Qed.

Lemma colorize_other hues cz data w :
  nullish data = false →
  (∀ d c, data = JObj d → prop d "chart_config" ≠ JObj c) →
  colorize hues cz data w = (Normal data, w).
Proof.
  intros Hn Hc. unfold colorize. rewrite bind_run, get_run by done.
  destruct data as [| | | | | |d]; try done. cbn [own].
  destruct (prop d "chart_config") as [| | | | | |c] eqn:E; try done.
  by destruct (Hc d c).
Qed.

Lemma colorize_null hues cz data w :
  nullish data = true → ∃ e, colorize hues cz data w = (Throw e, w).
Proof.
  intros Hn. unfold colorize.
  destruct (get_throw data "chart_config" w Hn) as [e He].
  rewrite bind_run, He. eauto.
Qed.

Lemma chart_config_object_dec (data : JsVal) :
  (∃ d c, data = JObj d ∧ prop d "chart_config" = JObj c) ∨
  (∀ d c, data = JObj d → prop d "chart_config" ≠ JObj c).
Proof.
  destruct data as [| | | | | |d]; try (by right).
  destruct (prop d "chart_config") as [| | | | | |c] eqn:E;
    try (right; intros d' c' [= <-]; congruence).
  left. eauto.
Qed.


Lemma colorize_normal_inv hues cz data w data' w' :
  colorize hues cz data w = (Normal data', w') →
  nullish data' = false ∧
  (∃ n, w' = advance n w) ∧
  ((data' = data ∧
    ∀ d c x l, data = JObj d → prop d "chart_config" = JObj c →
               prop c "datasets" ≠ JArr (x :: l)) ∨
   ∃ d c l l', data = JObj d ∧ prop d "chart_config" = JObj c ∧
     prop c "datasets" = JArr l ∧ l ≠ [] ∧
     Forall2 (recoloured hues c) l l' ∧ data' = with_datasets d c l').
Proof.
  intros H. destruct (nullish data) eqn:Hn.
  { destruct (colorize_null hues cz data w Hn) as [e He]. congruence. }
  destruct (chart_config_object_dec data) as [(d & c & -> & Hc)|Hno].
  - rewrite (colorize_object hues cz d c w Hc) in H.
    destruct (prop c "datasets") as [| | | |s|l|ds] eqn:Hds;
      try (injection H as <- <-; split; [done|];
           split; [by exists 0; rewrite advance_0|];
           left; split; [done|]; intros d' c' x l' [= <-] Hc';
           rewrite Hc in Hc'; injection Hc' as <-; congruence).
    + destruct (negb (String.eqb s "")); [done|]. injection H as <- <-.
      split; [done|]. split; [by exists 0; rewrite advance_0|].
      left. split; [done|]. intros d' c' x l' [= <-] Hc'.
      rewrite Hc in Hc'. injection Hc' as <-. congruence.
    + destruct l as [|x l].
      * injection H as <- <-. split; [done|].
        split; [by exists 0; rewrite advance_0|].
        left. split; [done|]. intros d' c' x l' [= <-] Hc'.
        rewrite Hc in Hc'. injection Hc' as <-. congruence.
      * destruct (existsb (blocks c) (x :: l)) eqn:Hb.
        { destruct (backgrounds_throw hues c (x :: l) w Hb) as (e & w1 & He).
          by rewrite He in H. }
        destruct (backgrounds_pass hues c (x :: l) w Hb)
          as (l' & n & Hrun & Hall).
        rewrite Hrun in H. injection H as <- <-.
        split; [done|]. split; [by eauto|]. right.
        exists d, c, (x :: l), l'. done.
    + pose proof (greater_than_zero_world cz (prop ds "length") w) as Hw.
      destruct (greater_than_zero cz (prop ds "length") w) as [[[]|e'] w1];
        [done| |done].
      cbn in Hw. subst w1. injection H as <- <-.
      split; [done|]. split; [by exists 0; rewrite advance_0|].
      left. split; [done|]. intros d' c' x l' [= <-] Hc'.
      rewrite Hc in Hc'. injection Hc' as <-. congruence.
  - rewrite colorize_other in H by done. injection H as <- <-.
    split; [done|]. split; [by exists 0; rewrite advance_0|].
    left. split; [done|]. intros d c x l -> Hc. by destruct (Hno d c).
Qed.

(** ** Settling a request *)

Lemma conversation_of_run userQuery data w :
  nullish data = false →
  conversation_of userQuery data w =
  (Normal {| user_text := userQuery;
             bot_text := own data "answer";
             bot_chartType := own data "chart_type";
             bot_chartConfig := or_else (own data "chart_config") JNull;
             bot_sql := own data "sql";
             bot_raw := own data "result" |}, w).
Proof.
  intros Hn. unfold conversation_of. js_step.
  rewrite get_run by done. js_step. rewrite get_run by done. js_step.
  rewrite get_run by done. js_step. rewrite get_run by done. js_step.
  by rewrite get_run by done.
Qed.

Lemma on_resolved_normal_inv hues cz userQuery data w conv w' :
  on_resolved hues cz userQuery data w = (Normal conv, w') →
  ∃ data',
    colorize hues cz data w = (Normal data', w') ∧
    user_text conv = userQuery ∧
    bot_chartConfig conv = or_else (own data' "chart_config") JNull.
Proof.
  unfold on_resolved. intros (data' & w1 & Hcol & Hconv)%bind_normal_inv.
  pose proof (colorize_normal_inv _ _ _ _ _ _ Hcol) as (Hn & _).
  rewrite conversation_of_run in Hconv by done. injection Hconv as <- <-.
  exists data'. done.
Qed.




(** ** What [ChartComponent] receives from [App] *)

Lemma hsl_palette_lookup hues p ls j :
  j < length ls →
  hsl_palette hues p ls !! j = Some (JStr (hsl (hues (p + j)))).
Proof.
  intros Hj. unfold hsl_palette. rewrite list_lookup_imap.
  by destruct (lookup_lt_is_Some_2 ls j Hj) as [x ->].
Qed.

Lemma with_datasets_chart_config d c l' :
  or_else (own (with_datasets d c l') "chart_config") JNull
  = JObj (<["datasets" := JArr l']> c).
Proof.
  unfold with_datasets, own, prop. by rewrite lookup_insert_eq.
Qed.

Lemma or_else_null_object v c : or_else v JNull = JObj c → v = JObj c.
Proof. unfold or_else. by destruct (truthy v). Qed.

Lemma own_object data k c :
  own data k = JObj c → ∃ d, data = JObj d ∧ prop d k = JObj c.
Proof. destruct data; try done. eauto. Qed.

Lemma recoloured_background hues c ds out :
  recoloured hues c ds out →
  ∃ o, out = JObj o ∧ truthy (prop o "backgroundColor") = true.
Proof.
  intros (_ & bg & -> & Hbg & _). eexists. split; [reflexivity|].
  unfold prop. by rewrite lookup_insert_eq.
Qed.

Lemma on_resolved_backgrounds hues cz userQuery data w conv w' :
  on_resolved hues cz userQuery data w = (Normal conv, w') →
  backgrounds_set (bot_chartConfig conv).
Proof.
  intros (data' & Hcol & _ & Hcc)%on_resolved_normal_inv.
  apply colorize_normal_inv in Hcol
    as (_ & _ & [[-> Hnone]|(d & c & l & l' & -> & Hc & Hds & _ & Hall & ->)]).
  - intros c l Hconv Hl. rewrite Hcc in Hconv.
    apply or_else_null_object, own_object in Hconv as (d & -> & Hc).
    destruct l as [|x l]; [constructor|]. by destruct (Hnone d c x l).
  - intros c0 l0 Hconv Hl. rewrite Hcc, with_datasets_chart_config in Hconv.
    injection Hconv as <-. unfold prop in Hl. rewrite lookup_insert_eq in Hl.
    injection Hl as <-.
    apply Forall_lookup_2. intros i out Hi.
    destruct (Forall2_lookup_r _ _ _ _ _ Hall Hi) as (ds & _ & Hrec).
    by apply recoloured_background in Hrec.
Qed.

(** After an accepted reply whose chart configuration has a non-empty
    [datasets] array, the stored configuration is the one of the reply with
    each series given a background colour: a series keeps a truthy one it
    came with, and otherwise gets an array with one [hsl] colour per label,
    each from its own random draw; the other properties of a series and of
    the configuration are untouched. *)
Theorem fetched_series_have_backgrounds (hues : nat → N)
    (cz : JsVal → Completion bool) (userQuery : string) (data : JsVal)
    (w w' : World) (conv : Conversation) (d c : gmap string JsVal)
    (l : list JsVal) :
  on_resolved hues cz userQuery data w = (Normal conv, w') →
  data = JObj d → prop d "chart_config" = JObj c →
  prop c "datasets" = JArr l → l ≠ [] →
  ∃ l',
    bot_chartConfig conv = JObj (<["datasets" := JArr l']> c) ∧
    Forall2
      (λ ds out,
         ∃ o, out = JObj o ∧
           truthy (prop o "backgroundColor") = true ∧
           (∀ k, k ≠ "backgroundColor" → o !! k = spread ds !! k) ∧
           (truthy (own ds "backgroundColor") = true →
            prop o "backgroundColor" = own ds "backgroundColor") ∧
           (truthy (own ds "backgroundColor") = false →
            ∃ ls p cs,
              prop c "labels" = JArr ls ∧
              prop o "backgroundColor" = JArr cs ∧
              length cs = length ls ∧
              ∀ j, j < length ls →
                   cs !! j = Some (JStr ("hsl(" +:+ pretty (hues (p + j))
                                           +:+ ", 70%, 60%)"))))
      l l'.
Proof.
  intros H -> Hc Hds Hne.
  apply on_resolved_normal_inv in H as (data' & Hcol & _ & Hcc).
  apply colorize_normal_inv in Hcol
    as (_ & _ & [[-> Hnone]|(d' & c' & l0 & l' & [= <-] & Hc' & Hds' & _ & Hall & ->)]).
  { destruct l as [|x l]; [done|]. by destruct (Hnone d c x l). }
  rewrite Hc in Hc'. injection Hc' as <-.
  rewrite Hds in Hds'. injection Hds' as <-.
  exists l'. split; [by rewrite Hcc, with_datasets_chart_config|].
  eapply Forall2_impl; [exact Hall|].
  intros ds out (_ & bg & -> & Hbg & Hgiven & Hmade).
  eexists. split; [reflexivity|].
  assert (Hp : prop (<["backgroundColor" := bg]> (spread ds)) "backgroundColor" = bg)
    by (unfold prop; by rewrite lookup_insert_eq).
  rewrite Hp. split; [done|].
  split; [by intros k Hk; rewrite lookup_insert_ne|].
  split; [done|]. intros Hf.
  destruct (Hmade Hf) as (ls & p & Hls & ->).
  exists ls, p, (hsl_palette hues p ls). split; [done|]. split; [done|].
  split; [apply hsl_palette_length|]. intros j Hj. by apply hsl_palette_lookup.
Qed.



Lemma safeChartConfig_throw_inv chartConfig chartType w e w' :
  safeChartConfig chartConfig chartType w = (Throw e, w') →
  ∃ o raw, chartConfig = JObj o ∧ o !! "datasets" = Some (JArr raw) ∧
    (Exists (λ v, nullish v = true) raw ∨ resolved_labels o raw = None).
Proof.
  intros H. destruct (datasets_array chartConfig) as [raw|] eqn:Harr;
    [|by rewrite safeChartConfig_rejects in H].
  apply datasets_array_some in Harr as (o & -> & Hds).
  exists o, raw. split; [done|]. split; [done|].
  destruct (resolved_labels o raw) as [ls|] eqn:Hls; [|by right]. left.
  destruct (nullish_Forall_or_Exists raw) as [Hall|Hex]; [|done].
  rewrite (safeChartConfig_run o raw) in H by done. rewrite Hls in H.
  by destruct (survivors raw).
Qed.

Lemma ChartComponent_throw_iff chartType chartConfig isDarkMode w :
  (∃ e w', ChartComponent chartType chartConfig isDarkMode w = (Throw e, w')) ↔
  (∃ e w', safeChartConfig chartConfig chartType w = (Throw e, w')).
Proof.
  unfold ChartComponent. rewrite bind_run.
  destruct (safeChartConfig chartConfig chartType w) as [[r|e] w'] eqn:H.
  - split; [|by intros (e & w1 & ?)]. intros (e & w1 & He).
    destruct r as [cfg|]; [|done].
    apply safeChartConfig_well_formed in H.
    destruct (renderChart_some_normal cfg chartType isDarkMode w' H)
      as (el & Hel & _). congruence.
  - split; eauto.
Qed.

(** A configuration that [App] has stored can still make the chart section
    throw while rendering, but for one reason only: its [labels] is not an
    array and the [data] of its first series is neither an array nor
    [null]/[undefined].  A [null] series, the other cause of an exception
    in the clean-up, never gets past [fetchData]. *)
Theorem fetched_chart_throws_exactly (hues : nat → N)
    (cz : JsVal → Completion bool) (userQuery : string) (data : JsVal)
    (w w' w1 : World) (conv : Conversation) (isDarkMode : bool) :
  on_resolved hues cz userQuery data w = (Normal conv, w') →
  (∃ e w1', chart_section conv isDarkMode w1 = (Throw e, w1')) ↔
  ∃ o raw d,
    bot_chartConfig conv = JObj o ∧ o !! "datasets" = Some (JArr raw) ∧
    is_array (prop o "labels") = false ∧
    head raw = Some (JObj d) ∧
    nullish (prop d "data") = false ∧ is_array (prop d "data") = false.
Proof.
  intros Hfetch. apply on_resolved_backgrounds in Hfetch.
  unfold chart_section. split.
  - intros (e & w1' & H).
    destruct (truthy (bot_chartConfig conv)); [|done].
    rewrite bind_run in H.
    destruct (ChartComponent (bot_chartType conv) (bot_chartConfig conv)
                isDarkMode w1) as [[el|e'] w2] eqn:Hc; [done|].
    assert (Hthrow : ∃ e w', safeChartConfig (bot_chartConfig conv)
                                (bot_chartType conv) w1 = (Throw e, w'))
      by (apply (ChartComponent_throw_iff _ _ isDarkMode); eauto).
    destruct Hthrow as (e0 & w0 & Hsafe).
    apply safeChartConfig_throw_inv in Hsafe as (o & raw & Hconv & Hds & Hcase).
    destruct Hcase as [Hex|Hnone].
    + pose proof (Hfetch o raw Hconv (prop_lookup _ _ _ Hds)) as Hall.
      apply Exists_exists in Hex as (v & Hin & Hv).
      rewrite Forall_forall in Hall. destruct (Hall v Hin) as (ds & -> & _).
      done.
    + apply resolved_labels_none in Hnone as (Hlab & d & Hhead & Hn & Ha).
      exists o, raw, d. done.
  - intros (o & raw & d & Hconv & Hds & Hlab & Hhead & Hn & Ha).
    rewrite Hconv. cbn [truthy]. rewrite bind_run.
    assert (Hnone : resolved_labels o raw = None)
      by (apply resolved_labels_none; eauto).
    unfold ChartComponent. rewrite bind_run.
    rewrite (safeChartConfig_labels_throw o raw) by done. eauto.
Qed.

(** * Properties of the theme *)

Lemma fetch_end_page userQuery reply s b :
  storage (snd (fetch_end userQuery reply s b)) = storage b ∧
  classes (snd (fetch_end userQuery reply s b)) = classes b ∧
  darkMode (fst (fetch_end userQuery reply s b)) = darkMode s.
Proof.
  destruct reply as [data|msg]; cbn [fetch_end]; [|done].
  by destruct (on_resolved (hues b) (compare_zero b) userQuery data (js b))
    as [[conv|[msg]] w].
Qed.

Lemma theme_effect_consistent s b :
  theme_consistent (s, theme_effect (darkMode s) b).
Proof.
  unfold theme_consistent, theme_effect. cbn [fst snd].
  destruct (darkMode s); cbn [storage classes with_page].
  - split; [by rewrite lookup_insert_eq|]. split; [done|]. intros _. set_solver.
  - split; [by rewrite lookup_insert_eq|]. split; [|done]. set_solver.
Qed.

Lemma step_consistent ev page :
  theme_consistent page → theme_consistent (step ev page).
Proof.
  destruct page as [s b]. intros Hinv. destruct ev as [|value|q|q reply].
  - cbn [step].
    apply (theme_effect_consistent
             {| conversation := conversation s; loading := loading s;
                error := error s; query := query s;
                darkMode := negb (darkMode s) |}).
  - exact Hinv.
  - exact Hinv.
  - unfold theme_consistent in *. cbn [step fst snd] in *.
    destruct (fetch_end_page q reply s b) as (-> & -> & ->). exact Hinv.
Qed.

Lemma page_load_consistent b events : theme_consistent (page_load b events).
Proof.
  unfold page_load.
  assert (Hmount : theme_consistent (mount (boot b))).
  { unfold mount.
    apply (theme_effect_consistent (fetch_begin (initial_state (boot b)))). }
  revert Hmount. generalize (mount (boot b)).
  induction events as [|ev events IH]; intros page Hpage; [done|].
  cbn [foldl]. apply IH. by apply step_consistent.
Qed.

(** After the page has loaded, and whatever happens on it, the theme in the
    state, the [dark-mode] class on the body and the saved theme agree: the
    class is present exactly in dark mode, and [localStorage] holds "dark"
    in dark mode and "light" otherwise. *)
Theorem theme_follows_state (b : Browser) (events : list Event) :
  let s := fst (page_load b events) in
  let b' := snd (page_load b events) in
  ("dark-mode" ∈ classes b' ↔ darkMode s = true) ∧
  (storage b' !! "appTheme" = Some "dark" ↔ darkMode s = true) ∧
  (storage b' !! "appTheme" = Some "light" ↔ darkMode s = false).
Proof.
  destruct (page_load_consistent b events) as [Hst Hcl].
  cbn zeta. split; [done|]. rewrite Hst.
  by destruct (darkMode (fst (page_load b events))).
Qed.

Lemma saved_dark_boot b : saved_dark (boot b) = saved_dark b.
Proof. unfold boot. by destruct (saved_dark b) eqn:E. Qed.

(** The theme survives a reload: loading the page again from what a session
    left in the browser starts in the theme that session ended in. *)
Theorem theme_survives_reload (b : Browser) (events : list Event) :
  darkMode (fst (page_load (snd (page_load b events)) []))
  = darkMode (fst (page_load b events)).
Proof.
  destruct (page_load_consistent b events) as [Hst _].
  unfold page_load at 1. cbn [foldl mount fst fetch_begin initial_state darkMode].
  rewrite saved_dark_boot. unfold saved_dark. rewrite Hst.
  destruct (darkMode (fst (page_load b events))); by case_bool_decide.
Qed.

Lemma theme_effect_light_mode d b :
  "light-mode" ∈ classes (theme_effect d b) ↔ "light-mode" ∈ classes b.
Proof. unfold theme_effect. destruct d; cbn; set_solver. Qed.

Lemma step_light_mode ev page :
  "light-mode" ∈ classes (snd (step ev page)) ↔ "light-mode" ∈ classes (snd page).
Proof.
  destruct page as [s b]. destruct ev as [|value|q|q reply]; cbn [step snd];
    try done.
  - apply theme_effect_light_mode.
  - by destruct (fetch_end_page q reply s b) as (_ & -> & _).
Qed.

(** The [light-mode] class is never removed: once [index.js] has put it on
    the body, for a saved theme other than "dark", it stays whatever
    happens, also while the page is in dark mode and carries [dark-mode]
    as well; and nothing but [index.js] ever adds it. *)
Theorem light_mode_class_stays (b : Browser) (events : list Event) :
  "light-mode" ∈ classes (snd (page_load b events)) ↔
  "light-mode" ∈ classes b ∨ storage b !! "appTheme" ≠ Some "dark".
Proof.
  unfold page_load.
  assert (Hmount : "light-mode" ∈ classes (snd (mount (boot b))) ↔
                   "light-mode" ∈ classes b ∨ storage b !! "appTheme" ≠ Some "dark").
  { unfold mount. cbn [snd]. rewrite theme_effect_light_mode.
    unfold boot, saved_dark. case_bool_decide as Hs; cbn [classes with_page].
    - set_solver.
    - set_solver. }
  revert Hmount. generalize (mount (boot b)).
  induction events as [|ev events IH]; intros page Hpage; [done|].
  cbn [foldl]. apply IH. by rewrite step_light_mode.
Qed.

(** * The further properties at concrete inputs *)

(** An empty [datasets] array: nothing is returned and one warning logged. *)
Lemma cleanup_warns_iff_nothing_witness :
  safeChartConfig (obj [("datasets", JArr [])]) (JStr "bar") counting_world
    = (Normal None, warned NoValidDatasets counting_world) ∧
  console (warned NoValidDatasets counting_world) = [NoValidDatasets].
Proof.
  assert (H : safeChartConfig (obj [("datasets", JArr [])]) (JStr "bar")
                counting_world
              = (Normal None, warned NoValidDatasets counting_world))
    by (vm_compute; reflexivity).
  split; [exact H|].
  destruct (cleanup_warns_iff_nothing _ _ _ _ _ H) as [_ Hlog]. exact Hlog.
Defined.

(** A series with both colours: the world is left as it was. *)
Lemma explicit_colours_need_no_randomness_witness :
  safeChartConfig styled_sales (JStr "bar") counting_world
    = (Normal (Some (cleaned styled_sales (JStr "bar") counting_world)),
       world_after styled_sales (JStr "bar") counting_world) ∧
  world_after styled_sales (JStr "bar") counting_world = counting_world.
Proof.
  assert (H : safeChartConfig styled_sales (JStr "bar") counting_world
              = (Normal (Some (cleaned styled_sales (JStr "bar") counting_world)),
                 world_after styled_sales (JStr "bar") counting_world))
    by (vm_compute; reflexivity).
  split; [exact H|].
  refine (proj1 (explicit_colours_need_no_randomness _ _ _ _ _
                   [obj [("label", JStr "Sales");
                         ("data", JArr [JNum 1; JNum 2]);
                         ("backgroundColor", JStr "teal");
                         ("borderColor", JStr "navy")]] H _ _)).
  - reflexivity.
  - constructor; [|constructor]. intros _. split; reflexivity.
Defined.

(** The cleaned quarterly bar chart, cleaned again as a line chart. *)
Lemma cleanup_is_idempotent_witness :
  safeChartConfig quarterly (JStr "bar") counting_world
    = (Normal (Some (cleaned quarterly (JStr "bar") counting_world)),
       world_after quarterly (JStr "bar") counting_world) ∧
  safeChartConfig (to_config (cleaned quarterly (JStr "bar") counting_world))
                  (JStr "line") counting_world
    = (Normal (Some (cleaned quarterly (JStr "bar") counting_world)),
       counting_world).
Proof.
  assert (H : safeChartConfig quarterly (JStr "bar") counting_world
              = (Normal (Some (cleaned quarterly (JStr "bar") counting_world)),
                 world_after quarterly (JStr "bar") counting_world))
    by (vm_compute; reflexivity).
  split; [exact H|].
  exact (cleanup_is_idempotent _ _ _ _ _ (JStr "line") counting_world H).
Defined.

(** The quarterly chart as a table. *)
Lemma rendering_never_throws_witness :
  safeChartConfig quarterly (JStr "table") counting_world
    = (Normal (Some (cleaned quarterly (JStr "table") counting_world)),
       world_after quarterly (JStr "table") counting_world) ∧
  ∃ el, ChartComponent (JStr "table") quarterly true counting_world
        = (Normal el, world_after quarterly (JStr "table") counting_world).
Proof.
  assert (H : safeChartConfig quarterly (JStr "table") counting_world
              = (Normal (Some (cleaned quarterly (JStr "table") counting_world)),
                 world_after quarterly (JStr "table") counting_world))
    by (vm_compute; reflexivity).
  split; [exact H|].
  destruct (rendering_never_throws _ _ true _ _ _ H) as (el & Hel & _).
  exists el. exact Hel.
Defined.


(** The fallback chart under kind "pie" has no scales. *)
Lemma scales_follow_kind_witness :
  renderChart None (JStr "pie") false counting_world
    = (Normal (defaultChart false (JStr "pie")), counting_world) ∧
  ∃ d o, chart_of (defaultChart false (JStr "pie")) = Some (d, o) ∧
         scales o = None.
Proof.
  assert (H : renderChart None (JStr "pie") false counting_world
              = (Normal (defaultChart false (JStr "pie")), counting_world))
    by reflexivity.
  split; [exact H|]. eexists _, _. split; [reflexivity|].
  refine (proj2 (proj1 (scales_follow_kind _ _ _ _ _ _ _ _ H eq_refl)) eq_refl).
Defined.

(** The header of the quarterly table. *)
Lemma table_header_names_series_witness :
  safeChartConfig quarterly (JStr "table") counting_world
    = (Normal (Some (cleaned quarterly (JStr "table") counting_world)),
       world_after quarterly (JStr "table") counting_world) ∧
  ∃ body,
    renderChart (Some (cleaned quarterly (JStr "table") counting_world))
                (JStr "table") false counting_world
    = (Normal (Table [JStr "Category"; JStr "Series"] body), counting_world).
Proof.
  assert (H : safeChartConfig quarterly (JStr "table") counting_world
              = (Normal (Some (cleaned quarterly (JStr "table") counting_world)),
                 world_after quarterly (JStr "table") counting_world))
    by (vm_compute; reflexivity).
  split; [exact H|].
  destruct (table_header_names_series _ _ _ _ counting_world _ false H)
    as (body & Hrun & _).
  exists body. exact Hrun.
Defined.

(** The labels of the quarterly bar chart. *)
Lemma cleaned_series_labelled_witness :
  safeChartConfig quarterly (JStr "bar") counting_world
    = (Normal (Some (cleaned quarterly (JStr "bar") counting_world)),
       world_after quarterly (JStr "bar") counting_world) ∧
  datasets (cleaned quarterly (JStr "bar") counting_world) ≠ [].
Proof.
  assert (H : safeChartConfig quarterly (JStr "bar") counting_world
              = (Normal (Some (cleaned quarterly (JStr "bar") counting_world)),
                 world_after quarterly (JStr "bar") counting_world))
    by (vm_compute; reflexivity).
  split; [exact H|].
  exact (proj1 (cleaned_series_labelled _ _ _ _ _ H)).
Defined.

(** The sales reply: its one series, which brings no colour, gets one. *)
Lemma fetched_series_have_backgrounds_witness :
  on_resolved (hues plain_browser) (compare_zero plain_browser)
              "sales" sales_reply (js plain_browser)
    = (Normal (stored "sales" sales_reply plain_browser),
       js_after "sales" sales_reply plain_browser) ∧
  ∃ l', bot_chartConfig (stored "sales" sales_reply plain_browser)
        = JObj (<["datasets" := JArr l']> (as_object quarterly)) ∧
        length l' = 1.
Proof.
  assert (H : on_resolved (hues plain_browser) (compare_zero plain_browser)
                "sales" sales_reply (js plain_browser)
              = (Normal (stored "sales" sales_reply plain_browser),
                 js_after "sales" sales_reply plain_browser))
    by (vm_compute; reflexivity).
  split; [exact H|].
  destruct (fetched_series_have_backgrounds _ _ _ _ _ _ _
              (as_object sales_reply) (as_object quarterly)
              [obj [("data", JArr [JNum 100; JNum 200])]] H)
    as (l' & Hcc & Hall); [reflexivity|reflexivity|reflexivity|discriminate|].
  exists l'. split; [exact Hcc|].
  exact (eq_sym (Forall2_length _ _ _ Hall)).
Defined.


(** A reply whose series all bring a colour is stored, and then makes the
    chart section throw: [labels] is missing and the first [data] is text. *)
Lemma fetched_chart_throws_exactly_witness :
  on_resolved (hues plain_browser) (compare_zero plain_browser)
              "sales" coloured_broken_reply (js plain_browser)
    = (Normal (stored "sales" coloured_broken_reply plain_browser),
       js_after "sales" coloured_broken_reply plain_browser) ∧
  ∃ e w', chart_section (stored "sales" coloured_broken_reply plain_browser)
                        false counting_world = (Throw e, w').
Proof.
  assert (H : on_resolved (hues plain_browser) (compare_zero plain_browser)
                "sales" coloured_broken_reply (js plain_browser)
              = (Normal (stored "sales" coloured_broken_reply plain_browser),
                 js_after "sales" coloured_broken_reply plain_browser))
    by (vm_compute; reflexivity).
  split; [exact H|].
  apply (proj2 (fetched_chart_throws_exactly _ _ _ _ _ _ counting_world _ false H)).
  eexists _, _, _. split; [vm_compute; reflexivity|].
  split; [reflexivity|]. split; [reflexivity|]. split; [reflexivity|].
  split; reflexivity.
Defined.
